(** * Skill-Repo: the documentation analyzer, the packaging validator and the linter

    A shallow embedding of

    - [skill-documentation-enhancer/scripts/doc_analyzer.py] ([SkillDocAnalyzer]),
    - [package_skill.py] ([SkillValidator]),
    - [forge.py] ([SkillForge.lint]),

    and the properties of their parsing, scoring and validation rules.

    Modelling conventions.
    - A Python [str] is a Rocq [string]; one [ascii] stands for one character,
      so the documents covered are those over the code points 0..255.
      [lower], [strip] and [len] follow Python on that range.
    - A Python [int] is a [Z]; a count ([len], [str.count]) is a [nat] that is
      injected into [Z] where it enters score arithmetic.
    - A Python [float] is an IEEE 754 binary64 value, [spec_float] with
      precision 53 and maximal exponent 1024, rounded to nearest even.
    - A [dict] with string keys is a [gmap string string].
    - A [set] is the list of its members as they were added; the order in
      which a loop walks it is a parameter, [set_iter].
    - The file system is a record of the queries the programs make. *)

From Stdlib Require Import ZArith Lia Ascii String List.
From Stdlib Require Import Floats.SpecFloat.
From Stdlib Require Import Numbers.DecimalString.
From stdpp Require Import gmap strings list.

Local Open Scope Z_scope.

(* ===================================================================== *)
(** * Python strings *)
(* ===================================================================== *)

Module Py.

(** The line feed, Python's ['\n']. *)
Definition nl_char : ascii := "010"%char.
Definition nl : string := String nl_char EmptyString.

(** [len(s)] *)
Definition len (s : string) : nat := String.length s.

(** [s[n:]] *)
Fixpoint drop_str (n : nat) (s : string) : string :=
  match n, s with
  | O, _ => s
  | S _, EmptyString => EmptyString
  | S k, String _ s' => drop_str k s'
  end.

(** [s[:n]] *)
Fixpoint take_str (n : nat) (s : string) : string :=
  match n, s with
  | O, _ => EmptyString
  | S _, EmptyString => EmptyString
  | S k, String c s' => String c (take_str k s')
  end.

(** [s.startswith(p)] *)
Fixpoint startswith (p s : string) : bool :=
  match p, s with
  | EmptyString, _ => true
  | String _ _, EmptyString => false
  | String a p', String b s' => if Ascii.eqb a b then startswith p' s' else false
  end.

(** [s.endswith(p)] *)
Definition endswith (p s : string) : bool :=
  (len p <=? len s)%nat && String.eqb (drop_str (len s - len p) s) p.

(** [sub in s] *)
Fixpoint str_in (sub s : string) : bool :=
  startswith sub s ||
  match s with
  | EmptyString => false
  | String _ s' => str_in sub s'
  end.

(** [s.partition(sub)] when [sub] occurs: the text before its first
    occurrence and the text after it; [None] when it does not occur. *)
Fixpoint partition (sub s : string) : option (string * string) :=
  if startswith sub s then Some (EmptyString, drop_str (len sub) s)
  else match s with
       | EmptyString => None
       | String c s' =>
           match partition sub s' with
           | Some (before, after) => Some (String c before, after)
           | None => None
           end
       end.

(** [s.count(sub)]: occurrences counted left to right without overlap.
    [skip] is the number of characters still covered by the last match. *)
Fixpoint count_from (sub s : string) (skip : nat) : nat :=
  match s with
  | EmptyString => O
  | String _ s' =>
      match skip with
      | S k => count_from sub s' k
      | O => if startswith sub s
             then S (count_from sub s' (len sub - 1))
             else count_from sub s' O
      end
  end.

Definition count (sub s : string) : nat :=
  match sub with
  | EmptyString => S (len s)
  | _ => count_from sub s O
  end.

(** [s.split(sep)] for a one-character separator: never empty. *)
Fixpoint split_char (sep : ascii) (s : string) : list string :=
  match s with
  | EmptyString => [EmptyString]
  | String c s' =>
      if Ascii.eqb c sep then EmptyString :: split_char sep s'
      else match split_char sep s' with
           | [] => [String c EmptyString]
           | l :: ls => String c l :: ls
           end
  end.

(** [sep.join(parts)] *)
Fixpoint join (sep : string) (parts : list string) : string :=
  match parts with
  | [] => EmptyString
  | [p] => p
  | p :: ps => p +:+ sep +:+ join sep ps
  end.

(** [c.isspace()] on the code points 0..255: the ASCII controls 9-13 and
    28-31, the space, NEL (0x85) and the no-break space (0xA0). *)
Definition isspace (c : ascii) : bool :=
  let n := nat_of_ascii c in
  ((9 <=? n) && (n <=? 13) || (28 <=? n) && (n <=? 32) || (n =? 133) || (n =? 160))%nat.

Fixpoint lstrip (s : string) : string :=
  match s with
  | EmptyString => EmptyString
  | String c s' => if isspace c then lstrip s' else s
  end.

Fixpoint rstrip (s : string) : string :=
  match s with
  | EmptyString => EmptyString
  | String c s' =>
      match rstrip s' with
      | EmptyString => if isspace c then EmptyString else String c EmptyString
      | r => String c r
      end
  end.

(** [s.strip()] *)
Definition strip (s : string) : string := rstrip (lstrip s).

(** [c.lower()] on the code points 0..255: A-Z, and the Latin-1 capitals
    0xC0-0xDE other than the multiplication sign 0xD7, move up by 32. *)
Definition lower_char (c : ascii) : ascii :=
  let n := nat_of_ascii c in
  if ((65 <=? n) && (n <=? 90) || (192 <=? n) && (n <=? 222) && negb (n =? 215))%nat
  then ascii_of_nat (n + 32) else c.

(** [s.lower()] *)
Fixpoint lower (s : string) : string :=
  match s with
  | EmptyString => EmptyString
  | String c s' => String (lower_char c) (lower s')
  end.

(** Truthiness of a string: [bool(s)]. *)
Definition truthy (s : string) : bool :=
  match s with EmptyString => false | _ => true end.

(** [a or b] on strings. *)
Definition or_str (a b : string) : string := if truthy a then a else b.

(** [str(n)] for a count. *)
Definition str_of_nat (n : nat) : string := NilZero.string_of_uint (Nat.to_uint n).

(** [re.findall] as a scan: [try] matches the pattern at the head of the
    text and returns the match with the text after it.  The scan resumes
    after a match, and one character further on where there is none.
    Every match is non-empty, so [S (len s)] steps of fuel exhaust [s]. *)
Fixpoint findall_fuel {A : Type} (try : string -> option (A * string))
    (fuel : nat) (s : string) : list A :=
  match fuel with
  | O => []
  | S f =>
      match try s with
      | Some (m, rest) => m :: findall_fuel try f rest
      | None =>
          match s with
          | EmptyString => []
          | String _ s' => findall_fuel try f s'
          end
      end
  end.

Definition findall {A : Type} (try : string -> option (A * string)) (s : string) : list A :=
  findall_fuel try (S (len s)) s.

End Py.

(* ===================================================================== *)
(** * Python floats: IEEE 754 binary64 *)
(* ===================================================================== *)

Module Float64.

Definition prec : Z := 53.
Definition emax : Z := 1024.

(** [float(n)], correctly rounded. *)
Definition of_int (n : Z) : spec_float := binary_normalize prec emax n 0 false.

(** [a / b] on two ints: [None] is [ZeroDivisionError].  The operands of
    the programs below are far under 2^53, where both conversions are exact
    and the quotient is rounded once. *)
Definition truediv (a b : Z) : option spec_float :=
  if b =? 0 then None else Some (SFdiv prec emax (of_int a) (of_int b)).

(** [x * n] for a float [x] and an int [n]. *)
Definition mul_int (x : spec_float) (n : Z) : spec_float :=
  SFmul prec emax x (of_int n).

(** [int(x)]: truncation towards zero; [None] is the [OverflowError] or
    [ValueError] Python raises on an infinity or a NaN. *)
Definition to_int (x : spec_float) : option Z :=
  match x with
  | S754_zero _ => Some 0
  | S754_finite s m e =>
      let mag := match e with
                 | Z0 => Zpos m
                 | Zpos _ => Zpos m * 2 ^ e
                 | Zneg _ => Zpos m / 2 ^ (- e)
                 end in
      Some (if s then - mag else mag)
  | S754_infinity _ | S754_nan => None
  end.

End Float64.

(* ===================================================================== *)
(** * The skill directory *)
(* ===================================================================== *)

(** What the three programs ask of the directory [skill_path]. *)
Record SkillDir := {
  (** [(skill_path / p).exists()] *)
  path_exists : string -> bool;
  (** [(skill_path / "SKILL.md").read_text()], read when the file exists *)
  skill_md_text : string;
  (** the entry names of [(skill_path / p).iterdir()] *)
  iterdir : string -> list string
}.

(** [(skill_path / d).glob("*" + ext)]: the entries whose name ends in [ext]. *)
Definition glob_suffix (dir : SkillDir) (d ext : string) : list string :=
  filter (fun name => Is_true (Py.endswith ext name)) (iterdir dir d).

(* ===================================================================== *)
(** * doc_analyzer.py *)
(* ===================================================================== *)

Module DocAnalyzer.
Import Py.

(** A sub-score: [(score, max_score, issues)]. *)
Definition score_triple : Type := Z * Z * list string.

(** The group of [re.search(r'^---\n(.*?)\n---', content, re.DOTALL)]: the
    text must open with the delimiter line, and the lazy group ends at the
    first line feed followed by three dashes. *)
Definition frontmatter_match (content : string) : option string :=
  if startswith ("---" +:+ nl) content then
    match partition (nl +:+ "---") (drop_str 4 content) with
    | Some (block, _) => Some block
    | None => None
    end
  else None.

Definition frontmatter_line (fm : gmap string string) (line : string) : gmap string string :=
  match partition ":" line with
  | Some (key, value) => <[strip key := strip value]> fm
  | None => fm
  end.

Definition _parse_frontmatter (content : string) : gmap string string :=
  match frontmatter_match content with
  | None => ∅
  | Some block => foldl frontmatter_line ∅ (split_char nl_char block)
  end.

(** The loop state of [_parse_sections]. *)
Record sec_state := {
  st_sections : gmap string string;
  current_section : option string;
  current_content : list string
}.

(** [if current_section:] on a value that is [None] or a string. *)
Definition section_open (cur : option string) : option string :=
  match cur with
  | Some name => if truthy name then Some name else None
  | None => None
  end.

(** [sections[current_section] = '\n'.join(current_content)], guarded. *)
Definition flush (st : sec_state) : gmap string string :=
  match section_open (current_section st) with
  | Some name => <[name := join nl (current_content st)]> (st_sections st)
  | None => st_sections st
  end.

Definition sections_step (st : sec_state) (line : string) : sec_state :=
  if startswith "## " line then
    {| st_sections := flush st;
       current_section := Some (strip (drop_str 3 line));
       current_content := [] |}
  else
    match section_open (current_section st) with
    | Some _ =>
        {| st_sections := st_sections st;
           current_section := current_section st;
           current_content := current_content st ++ [line] |}
    | None => st
    end.

Definition sections_init : sec_state :=
  {| st_sections := ∅; current_section := None; current_content := [] |}.

Definition parse_section_lines (lines : list string) : gmap string string :=
  flush (foldl sections_step sections_init lines).

Definition _parse_sections (content : string) : gmap string string :=
  parse_section_lines (split_char nl_char content).

(** [_find_scripts]: the names of [scripts/*.py]. *)
Definition _find_scripts (dir : SkillDir) : list string :=
  if path_exists dir "scripts" then glob_suffix dir "scripts" ".py" else [].

(** The analyzer object after [__init__]. *)
Record analyzer := {
  skill_path : SkillDir;
  content : string;
  frontmatter : gmap string string;
  sections : gmap string string;
  scripts : list string
}.

(** [SkillDocAnalyzer(skill_path)]; [None] is [FileNotFoundError]. *)
Definition SkillDocAnalyzer (dir : SkillDir) : option analyzer :=
  if path_exists dir "SKILL.md" then
    let text := skill_md_text dir in
    Some {| skill_path := dir;
            content := text;
            frontmatter := _parse_frontmatter text;
            sections := _parse_sections text;
            scripts := _find_scripts dir |}
  else None.

(** [key in d] *)
Definition has_key (d : gmap string string) (key : string) : bool :=
  bool_decide (is_Some (d !! key)).

Definition trigger_keywords : list string :=
  ["when"; "activated by"; "use for"; "trigger"].

Definition _score_frontmatter (self : analyzer) : score_triple :=
  let score := 0 in
  let max_score := 20 in
  let issues := [] in
  let '(score, issues) :=
    if has_key (frontmatter self) "name" then (score + 5, issues)
    else (score, issues ++ ["Missing 'name' field in frontmatter"]) in
  let '(score, issues) :=
    match frontmatter self !! "description" with
    | Some desc =>
        let score := score + 5 in
        let '(score, issues) :=
          if (50 <? len desc)%nat then (score + 5, issues)
          else (score, issues ++ ["Description too short (< 50 chars)"]) in
        let '(score, issues) :=
          if str_in "TODO" desc
          then (score - 5, issues ++ ["Description contains TODO placeholder"])
          else (score, issues) in
        if existsb (fun kw => str_in kw (lower desc)) trigger_keywords
        then (score + 5, issues)
        else (score, issues ++ ["Description lacks clear trigger terms"])
    | None => (score, issues ++ ["Missing 'description' field in frontmatter"])
    end in
  (score, max_score, issues).

Definition recommended_sections : list (string * Z) :=
  [ (or_str "Purpose" "Overview", 5);
    ("Usage", 5);
    ("Bundled Resources", 5);
    ("Best Practices", 5);
    ("Troubleshooting", 5) ].

Definition structure_step (secs : gmap string string)
    (acc : Z * list string) (entry : string * Z) : Z * list string :=
  let '(score, issues) := acc in
  let '(section_name, points) := entry in
  if has_key secs section_name then (score + points, issues)
  else (score, issues ++ ["Missing recommended section: " +:+ section_name]).

Definition _score_structure (self : analyzer) : score_triple :=
  let max_score := 25 in
  let '(score, issues) :=
    foldl (structure_step (sections self)) (0, []) recommended_sections in
  (score, max_score, issues).

(** One match of [r'```.*?```'] with [re.DOTALL] at the head of the text. *)
Definition fence_match (s : string) : option (string * string) :=
  if startswith "```" s then
    match partition "```" (drop_str 3 s) with
    | Some (body, rest) => Some ("```" +:+ body +:+ "```", rest)
    | None => None
    end
  else None.

Definition code_blocks (text : string) : list string := findall fence_match text.

(** [scripts_documented]: the scripts whose name occurs in the text. *)
Definition scripts_documented (self : analyzer) : nat :=
  length (filter (fun name => Is_true (str_in name (content self))) (scripts self)).

Definition _score_examples (self : analyzer) : score_triple :=
  let max_score := 30 in
  let num_code_blocks := length (code_blocks (content self)) in
  let '(score, issues) :=
    match num_code_blocks with
    | O => (0, ["No code examples found"])
    | 1%nat => (0 + 10, ["Only one code example (consider adding more use cases)"])
    | 2%nat => (0 + 20, [])
    | _ => (0 + 30, [])
    end in
  let issues :=
    match scripts self with
    | [] => issues
    | _ :: _ =>
        let documented := scripts_documented self in
        if (documented =? 0)%nat then issues ++ ["No examples for bundled scripts"]
        else if (documented <? length (scripts self))%nat then
          issues ++ ["Only " +:+ str_of_nat documented +:+ "/" +:+
                     str_of_nat (length (scripts self)) +:+ " scripts have examples"]
        else issues
    end in
  (score, max_score, issues).

Definition vague_terms : list string := ["something"; "things"; "stuff"; "etc."].

(** [sum(content.lower().count(term) for term in vague_terms)] *)
Definition vague_count (text : string) : nat :=
  foldr (fun term acc => (count term (lower text) + acc)%nat) O vague_terms.

Definition _score_clarity (self : analyzer) : score_triple :=
  let score := 20 in
  let max_score := 25 in
  let todo_count := count "todo" (lower (content self)) in
  let '(score, issues) :=
    if (0 <? todo_count)%nat then
      (score - Z.min 10 (Z.of_nat todo_count * 2),
       ["Found " +:+ str_of_nat todo_count +:+ " TODO markers (incomplete documentation)"])
    else (score, []) in
  let vague := vague_count (content self) in
  let '(score, issues) :=
    if (3 <? vague)%nat then
      (score - 5,
       issues ++ ["Contains vague language (" +:+ str_of_nat vague +:+ " instances)"])
    else (score, issues) in
  let '(score, issues) :=
    if has_key (sections self) "When to Use" || str_in "When to use" (content self)
    then (score + 5, issues)
    else (score, issues ++ ["No 'When to Use' guidance"]) in
  (score, max_score, issues).

Definition _identify_gaps (self : analyzer) : list string :=
  let gaps := [] in
  let gaps :=
    if negb (str_in "trigger" (lower (content self))) &&
       negb (str_in "activated" (lower (content self)))
    then gaps ++ ["No clear activation triggers documented"] else gaps in
  let gaps :=
    if negb (has_key (sections self) "Troubleshooting") &&
       negb (str_in "troubleshoot" (lower (content self)))
    then gaps ++ ["No troubleshooting section"] else gaps in
  let gaps :=
    if bool_decide (scripts self <> []) && negb (str_in "scripts/" (content self))
    then gaps ++ ["Scripts exist but aren't documented"] else gaps in
  let gaps :=
    if path_exists (skill_path self) "references" &&
       bool_decide (glob_suffix (skill_path self) "references" ".md" <> [])
    then
      if negb (str_in "references/" (content self))
      then gaps ++ ["Reference files exist but aren't documented"] else gaps
    else gaps in
  gaps.

Definition _generate_suggestions (self : analyzer) : list string :=
  let suggestions := [] in
  let suggestions :=
    match frontmatter self !! "description" with
    | Some desc =>
        if (len desc <? 100)%nat then
          suggestions ++
          ["Expand description to ~100-150 chars (currently " +:+ str_of_nat (len desc) +:+
           "). " +:+ "Include specific trigger terms and use cases."]
        else suggestions
    | None => suggestions
    end in
  let suggestions :=
    if (length (code_blocks (content self)) <? 2)%nat then
      suggestions ++
      ["Add more usage examples: basic use case, intermediate, and advanced scenarios"]
    else suggestions in
  let suggestions :=
    if negb (has_key (sections self) "Troubleshooting") then
      suggestions ++ ["Add Troubleshooting section with common issues and solutions"]
    else suggestions in
  let suggestions :=
    if negb (has_key (sections self) "Best Practices") then
      suggestions ++ ["Add Best Practices section with DO/DON'T guidance"]
    else suggestions in
  suggestions ++
  omap (fun name =>
          if str_in name (content self) then None
          else Some ("Document script '" +:+ name +:+ "' with usage examples"))
       (scripts self).

(** The dictionary [analyze] returns, one field per key. *)
Record analysis := {
  frontmatter_score : score_triple;
  structure_score : score_triple;
  example_score : score_triple;
  clarity_score : score_triple;
  overall_score : Z;
  gaps : list string;
  suggestions : list string
}.

Definition analyze (self : analyzer) : analysis :=
  {| frontmatter_score := _score_frontmatter self;
     structure_score := _score_structure self;
     example_score := _score_examples self;
     clarity_score := _score_clarity self;
     overall_score := 0;
     gaps := _identify_gaps self;
     suggestions := _generate_suggestions self |}.

(** [t[0]], [t[1]] and [t[2]] of a sub-score. *)
Definition points (t : score_triple) : Z := t.1.1.
Definition max_points (t : score_triple) : Z := t.1.2.
Definition issues_of (t : score_triple) : list string := t.2.

(** [int((total_score / total_max) * 100)]; [None] when Python raises. *)
Definition overall_percent (total_score total_max : Z) : option Z :=
  match Float64.truediv total_score total_max with
  | Some q => Float64.to_int (Float64.mul_int q 100)
  | None => None
  end.

(** The line printed under the overall score. *)
Inductive band := Excellent | Good | NeedsImprovement.

Definition classify (overall_pct : Z) : band :=
  if 80 <=? overall_pct then Excellent
  else if 60 <=? overall_pct then Good
  else NeedsImprovement.

(** What [print_report] writes, value by value in the order printed. *)
Record report := {
  r_total_score : Z;
  r_total_max : Z;
  r_overall_pct : Z;
  r_band : band;
  r_components : list (Z * Z);
  r_gaps : list string;
  r_suggestions : list string;
  r_all_issues : list string
}.

(** The two sums [print_report] starts with. *)
Definition total_score (a : analysis) : Z :=
  points (frontmatter_score a) + points (structure_score a) +
  points (example_score a) + points (clarity_score a).

Definition total_max (a : analysis) : Z :=
  max_points (frontmatter_score a) + max_points (structure_score a) +
  max_points (example_score a) + max_points (clarity_score a).

(** [print_report]; [None] when the percentage computation raises. *)
Definition print_report (self : analyzer) : option report :=
  let a := analyze self in
  match overall_percent (total_score a) (total_max a) with
  | Some overall_pct =>
      Some {| r_total_score := total_score a;
              r_total_max := total_max a;
              r_overall_pct := overall_pct;
              r_band := classify overall_pct;
              r_components :=
                map (fun t => (points t, max_points t))
                    [frontmatter_score a; structure_score a;
                     example_score a; clarity_score a];
              r_gaps := gaps a;
              r_suggestions := suggestions a;
              r_all_issues :=
                issues_of (frontmatter_score a) ++ issues_of (structure_score a) ++
                issues_of (example_score a) ++ issues_of (clarity_score a) |}
  | None => None
  end.

(** [main] in analysis mode: build the analyzer and print its report.
    [None] is an exit with status 1 after an error message. *)
Definition main (dir : SkillDir) : option report :=
  match SkillDocAnalyzer dir with
  | Some analyzer => print_report analyzer
  | None => None
  end.

(** The overall line of a report: score, maximum, percentage and band. *)
Definition overall_line (r : report) : Z * Z * Z * band :=
  (r_total_score r, r_total_max r, r_overall_pct r, r_band r).

End DocAnalyzer.

(* ===================================================================== *)
(** * package_skill.py *)
(* ===================================================================== *)

Module PackageSkill.
Import Py.

(** An object met inside a loaded mapping, as far as the validator looks:
    a string, or an object of another type (null, number, list, nested
    mapping, ...), of which the name of the type is kept. *)
Inductive py_obj :=
  | PStr (s : string)
  | PObj (type_name : string).

(** What [yaml.safe_load] hands back: a mapping, or some other object. *)
Inductive yaml_value :=
  | YDict (items : list (py_obj * py_obj))
  | YNotDict.

Inductive yaml_result :=
  | YamlValue (v : yaml_value)
  | YamlError (e : string).

(** The exceptions raised inside [validate]. *)
Inductive exn :=
  | ValidationError (msg : string)
  | TypeError (msg : string).

(** The mutable fields of a [SkillValidator]. *)
Record validator := {
  errors : list string;
  warnings : list string
}.

(** A method of the validator: it returns or raises, and leaves the object
    in a new state either way. *)
Definition M (A : Type) : Type := validator -> (A + exn) * validator.

Definition ret {A : Type} (a : A) : M A := fun v => (inl a, v).

Definition raise {A : Type} (e : exn) : M A := fun v => (inr e, v).

Definition bind {A B : Type} (m : M A) (k : A -> M B) : M B :=
  fun v =>
    match m v with
    | (inl a, v') => k a v'
    | (inr e, v') => (inr e, v')
    end.

Notation "m ;;; k" := (bind m (fun _ => k))
  (at level 100, k at level 200, right associativity).

(** [self.errors.append(msg)] and [self.warnings.append(msg)] *)
Definition add_error (msg : string) : M unit :=
  fun v => (inl tt, {| errors := errors v ++ [msg]; warnings := warnings v |}).

Definition add_warning (msg : string) : M unit :=
  fun v => (inl tt, {| errors := errors v; warnings := warnings v ++ [msg] |}).

(** [if c: body] *)
Definition when (c : bool) (body : M unit) : M unit := if c then body else ret tt.

(** [for x in xs: body(x)] *)
Fixpoint for_each {A : Type} (xs : list A) (body : A -> M unit) : M unit :=
  match xs with
  | [] => ret tt
  | x :: xs' => body x ;;; for_each xs' body
  end.

(** [s.split(sep, maxsplit)] *)
Fixpoint split_max (sep : string) (maxsplit : nat) (s : string) : list string :=
  match maxsplit with
  | O => [s]
  | S k =>
      match partition sep s with
      | Some (before, after) => before :: split_max sep k after
      | None => [s]
      end
  end.

(** [key in d] and [d[key]] for a string key of a loaded mapping. *)
Definition is_key (name : string) (k : py_obj) : bool :=
  match k with
  | PStr s => String.eqb s name
  | PObj _ => false
  end.

Fixpoint dict_get (items : list (py_obj * py_obj)) (name : string)
    : option py_obj :=
  match items with
  | [] => None
  | (k, v) :: rest => if is_key name k then Some v else dict_get rest name
  end.

(** [set(frontmatter.keys()) - {"name", "description"}]: the members of the
    set, listed as the mapping has them.  The order in which Python walks
    them is another matter, see [set_iter] below. *)
Definition extra_fields (items : list (py_obj * py_obj)) : list py_obj :=
  filter (fun k => Is_true (negb (is_key "name" k || is_key "description" k)))
         (map fst items).

(** [', '.join(keys)] joins the keys when all of them are strings; a key
    that is no string is a [TypeError]. *)
Fixpoint str_keys (keys : list py_obj) : option (list string) :=
  match keys with
  | [] => Some []
  | PStr s :: rest =>
      match str_keys rest with
      | Some ss => Some (s :: ss)
      | None => None
      end
  | PObj _ :: _ => None
  end.

(** The text of that [TypeError]: it names the position, counted from [i],
    and the type of the first item that is no string. *)
Fixpoint join_type_error (i : nat) (keys : list py_obj) : string :=
  match keys with
  | [] => EmptyString
  | PStr _ :: rest => join_type_error (S i) rest
  | PObj type_name :: _ =>
      "sequence item " +:+ str_of_nat i +:+ ": expected str instance, " +:+
      type_name +:+ " found"
  end.

(** The characters of [s] up to the first [stop], and the rest from it on. *)
Fixpoint span_until (stop : ascii) (s : string) : string * string :=
  match s with
  | EmptyString => (EmptyString, EmptyString)
  | String c s' =>
      if Ascii.eqb c stop then (EmptyString, s)
      else let '(run, rest) := span_until stop s' in (String c run, rest)
  end.

(** One match of [r'\[([^\]]+)\]\(([^)]+)\)'] at the head of the text: the
    groups are the link text and the link target. *)
Definition link_match (s : string) : option ((string * string) * string) :=
  match s with
  | String "["%char s1 =>
      let '(text, r1) := span_until "]"%char s1 in
      if truthy text && startswith "](" r1 then
        let '(target, r2) := span_until ")"%char (drop_str 2 r1) in
        if truthy target && startswith ")" r2
        then Some ((text, target), drop_str 1 r2)
        else None
      else None
  | _ => None
  end.

Definition ref_extensions : list string := ["py"; "sh"; "md"; "txt"].

(** One match of [r'`([^`]+\.(py|sh|md|txt))`'] at the head of the text: the
    groups are the name between the backticks and its extension.  The name
    holds no backtick and the closing backtick follows the extension, so the
    extension is the end of the name, after a dot and at least one more
    character. *)
Definition code_span_match (s : string) : option ((string * string) * string) :=
  match s with
  | String "`"%char s1 =>
      let '(name, r1) := span_until "`"%char s1 in
      if startswith "`" r1 then
        match
          List.find (fun ext => endswith ("." +:+ ext) name &&
                                (len ext + 1 <? len name)%nat) ref_extensions
        with
        | Some ext => Some ((name, ext), drop_str 1 r1)
        | None => None
        end
      else None
  | _ => None
  end.

(** [referenced_files.add(filepath)]: the members of the set are listed in
    the order in which they were added. *)
Definition set_add (x : string) (xs : list string) : list string :=
  if bool_decide (x ∈ xs) then xs else xs ++ [x].

(** The loop over both patterns: of every match the second group is taken
    ([match[1]]); URLs and anchors are skipped.  The result is the set
    [referenced_files] as the loop has filled it. *)
Definition referenced_files (content : string) : list string :=
  foldl
    (fun refs (m : string * string) =>
       let filepath := m.2 in
       if startswith "http://" filepath || startswith "https://" filepath ||
          startswith "#" filepath
       then refs
       else set_add filepath refs)
    []
    (findall link_match content ++ findall code_span_match content).

(** [c] ends a line for [str.splitlines] (code points 0..255). *)
Definition is_linebreak (c : ascii) : bool :=
  let n := nat_of_ascii c in
  ((10 <=? n) && (n <=? 13) || (28 <=? n) && (n <=? 30) || (n =? 133))%nat.

(** [s.splitlines()]; [skip_lf] is set right after a carriage return, whose
    line feed belongs to the same line break. *)
Fixpoint splitlines_from (s : string) (skip_lf : bool) : list string :=
  match s with
  | EmptyString => []
  | String c s' =>
      if skip_lf && Ascii.eqb c nl_char then splitlines_from s' false
      else if is_linebreak c then
        EmptyString :: splitlines_from s' (Ascii.eqb c "013"%char)
      else
        match splitlines_from s' false with
        | [] => [String c EmptyString]
        | l :: ls => String c l :: ls
        end
  end.

Definition splitlines (s : string) : list string := splitlines_from s false.

Definition extraneous_files : list string :=
  ["INSTALLATION_GUIDE.md"; "QUICK_REFERENCE.md"; "CHANGELOG.md"; "CONTRIBUTING.md"].

Definition readme_warning : string :=
  "README.md found. Skills should only contain SKILL.md, not additional " +:+
  "documentation files. Consider moving content to SKILL.md.".

Definition short_description_warning : string :=
  "Description is quite short. Consider adding more detail about " +:+
  "what the skill does and when to use it.".

Definition todo_warning : string := "Description contains TODO placeholders".

Definition missing_ref_warning (filepath : string) : string :=
  "Referenced file not found: " +:+ filepath.

Definition extra_fields_warning (fields : list string) : string :=
  "Frontmatter contains extra fields: " +:+ join ", " fields +:+ ". " +:+
  "Only 'name' and 'description' are required.".

Definition extraneous_error (filename : string) : string :=
  filename +:+ " found. Skills should not contain auxiliary " +:+
  "documentation files.".

Definition large_warning (estimated_tokens : nat) : string :=
  "SKILL.md is large (~" +:+ str_of_nat estimated_tokens +:+ " tokens). " +:+
  "Consider moving content to reference files.".

Definition long_warning (line_count : nat) : string :=
  "SKILL.md has " +:+ str_of_nat line_count +:+ " lines. " +:+
  "Consider keeping it under 500 lines and using references.".

Section Validator.

(** PyYAML's [yaml.safe_load], a library outside the repository. *)
Variable yaml_safe_load : string -> yaml_result.

(** The order in which Python walks a set: [set_iter A members] is the
    sequence a loop over the set meets, for the members listed as they were
    added.  It follows the hashes of the members, which for strings change
    from one run of the interpreter to the next. *)
Variable set_iter : forall A : Type, list A -> list A.

(** The directory under validation, [self.skill_path]. *)
Variable dir : SkillDir.

Definition _check_skill_md_exists : M unit :=
  if path_exists dir "SKILL.md" then ret tt
  else raise (ValidationError "SKILL.md not found").

(** [not isinstance(x, str) or not x.strip()] *)
Definition blank_or_not_str (x : py_obj) : bool :=
  match x with
  | PStr s => negb (truthy (strip s))
  | PObj _ => true
  end.

Definition _validate_frontmatter : M unit :=
  let content := skill_md_text dir in
  if negb (startswith "---" content) then
    raise (ValidationError "SKILL.md must start with YAML frontmatter (---)")
  else
  match split_max "---" 2 content with
  | [_; header; _] =>
      match yaml_safe_load header with
      | YamlError e => raise (ValidationError ("Invalid YAML frontmatter: " +:+ e))
      | YamlValue (YDict frontmatter) =>
          match dict_get frontmatter "name" with
          | None => raise (ValidationError "Frontmatter missing required 'name' field")
          | Some name =>
          match dict_get frontmatter "description" with
          | None =>
              raise (ValidationError "Frontmatter missing required 'description' field")
          | Some description =>
              if blank_or_not_str name then
                raise (ValidationError "'name' field must be a non-empty string")
              else
              match description with
              | PStr description =>
                  if negb (truthy (strip description)) then
                    raise (ValidationError "'description' field must be a non-empty string")
                  else
                    when (str_in "TODO" description || str_in "TODO:" description)
                         (add_warning todo_warning) ;;;
                    when (len description <? 50)%nat
                         (add_warning short_description_warning) ;;;
                    match extra_fields frontmatter with
                    | [] => ret tt
                    | extra =>
                        match str_keys (set_iter _ extra) with
                        | Some fields => add_warning (extra_fields_warning fields)
                        | None =>
                            raise (TypeError (join_type_error 0 (set_iter _ extra)))
                        end
                    end
              | PObj _ => raise (ValidationError "'description' field must be a non-empty string")
              end
          end
          end
      | YamlValue YNotDict => raise (ValidationError "Frontmatter must be a YAML dictionary")
      end
  | _ => raise (ValidationError "Invalid YAML frontmatter format")
  end.

Definition _validate_structure : M unit :=
  when (path_exists dir "README.md") (add_warning readme_warning) ;;;
  for_each extraneous_files (fun filename =>
    when (path_exists dir filename) (add_error (extraneous_error filename))).

Definition _check_file_references : M unit :=
  for_each (set_iter _ (referenced_files (skill_md_text dir))) (fun filepath =>
    when (negb (path_exists dir filepath))
         (add_warning (missing_ref_warning filepath))).

Definition _check_token_budget : M unit :=
  let content := skill_md_text dir in
  let estimated_tokens := (len content / 4)%nat in
  when (5000 <? estimated_tokens)%nat (add_warning (large_warning estimated_tokens)) ;;;
  let line_count := length (splitlines content) in
  when (500 <? line_count)%nat (add_warning (long_warning line_count)).

(** The body of the [try] block of [validate]. *)
Definition run_checks : M bool :=
  _check_skill_md_exists ;;;
  _validate_frontmatter ;;;
  _validate_structure ;;;
  _check_file_references ;;;
  _check_token_budget ;;;
  (fun v => (inl (bool_decide (errors v = [])), v)).

(** [validate]: a [ValidationError] is caught, recorded as an error and
    answered with [False]; any other exception leaves the method. *)
Definition validate : M bool :=
  fun v =>
    match run_checks v with
    | (inr (ValidationError e), v') =>
        (inl false, {| errors := errors v' ++ [e]; warnings := warnings v' |})
    | other => other
    end.

(** [SkillValidator(skill_path)] *)
Definition new_validator : validator := {| errors := []; warnings := [] |}.

End Validator.

(** [print_results]: the lines printed and the value returned. *)
Definition print_results (v : validator) : list string * bool :=
  ((match errors v with
    | [] => []
    | es => [nl +:+ "❌ VALIDATION FAILED" +:+ nl; "Errors:"] ++
            map (fun e => "  • " +:+ e) es
    end) ++
   (match warnings v with
    | [] => []
    | ws => [nl +:+ "⚠️  Warnings:"] ++ map (fun w => "  • " +:+ w) ws
    end) ++
   (match errors v, warnings v with
    | [], [] => [nl +:+ "✓ VALIDATION PASSED"]
    | _, _ => []
    end),
   bool_decide (errors v = [])).

(** The files under the skill directory as [os.walk] meets them: a
    directory is the sequence of its entries, each a regular file or a
    directory of its own. *)
Inductive fs_node :=
  | FsFile
  | FsDir (entries : fs_entries)
with fs_entries :=
  | FsNil
  | FsCons (name : string) (node : fs_node) (rest : fs_entries).

Scheme fs_node_mut := Induction for fs_node Sort Prop
  with fs_entries_mut := Induction for fs_entries Sort Prop.

(** [not d.startswith('.') and d != '__pycache__'] *)
Definition keep_dir (d : string) : bool :=
  negb (startswith "." d) && negb (String.eqb d "__pycache__").

(** The test under which a file is skipped negated:
    [file.startswith('.') or file.endswith(('.pyc', '.pyo'))]. *)
Definition keep_file (file : string) : bool :=
  negb (startswith "." file || (endswith ".pyc" file || endswith ".pyo" file)).

(** The inner loop of [package_skill] for one directory [root]: the paths,
    as sequences of parts, of the files written from it. *)
Fixpoint files_here (root : list string) (entries : fs_entries) : list (list string) :=
  match entries with
  | FsNil => []
  | FsCons name FsFile rest =>
      (if keep_file name then [root ++ [name]] else []) ++ files_here root rest
  | FsCons _ (FsDir _) rest => files_here root rest
  end.

(** What the walk writes from the directories below [root]: a directory
    that is kept gives its own files and then its subdirectories; one that
    is pruned from [dirs] is not entered. *)
Fixpoint walk_below (root : list string) (entries : fs_entries) : list (list string) :=
  match entries with
  | FsNil => []
  | FsCons name node rest =>
      match node with
      | FsFile => []
      | FsDir sub =>
          if keep_dir name
          then files_here (root ++ [name]) sub ++ walk_below (root ++ [name]) sub
          else []
      end ++ walk_below root rest
  end.

(** [package_skill]: the name of the output file and the arcnames written
    to it, each relative to the parent of the skill directory. *)
Definition package_skill (skill_name : string) (tree : fs_entries)
    : string * list (list string) :=
  (skill_name +:+ ".skill",
   files_here [skill_name] tree ++ walk_below [skill_name] tree).

(** How a run of [main] ends. *)
Inductive main_outcome :=
  | ExitNotFound
  | ExitNotADirectory
  | ExitInvalid (v : validator)
  | Packaged (v : validator) (output : string * list (list string))
  | Uncaught (e : exn) (v : validator).

(** [main] after argument parsing.  [skill_exists] and [skill_is_dir] are
    [skill_path.exists()] and [skill_path.is_dir()]; [dir] and [tree] are
    the skill directory as the validator and the walk read it; [set_iter]
    is the order in which the interpreter walks sets. *)
Definition main (yaml_safe_load : string -> yaml_result)
    (set_iter : forall A : Type, list A -> list A)
    (skill_exists skill_is_dir : bool) (skill_name : string)
    (dir : SkillDir) (tree : fs_entries) : main_outcome :=
  if negb skill_exists then ExitNotFound
  else if negb skill_is_dir then ExitNotADirectory
  else
    match validate yaml_safe_load set_iter dir new_validator with
    | (inl is_valid, v) =>
        if negb is_valid then ExitInvalid v
        else Packaged v (package_skill skill_name tree)
    | (inr e, v) => Uncaught e v
    end.

End PackageSkill.

(* ===================================================================== *)
(** * forge.py: [SkillForge.lint] *)
(* ===================================================================== *)

Module Forge.
Import Py.

Definition you_openers : list string :=
  ["you should"; "you can"; "you must"; "you will"].

(** The lines that open with "you ..." language, each cut to 60 characters. *)
Definition non_imperative (content : string) : list string :=
  omap (fun line =>
          let line_lower := strip (lower line) in
          if existsb (fun p => startswith p line_lower) you_openers
          then Some (take_str 60 line) else None)
       (split_char nl_char content).

Definition empty_dir_suggestion (d : string) : string :=
  d +:+ "/ directory is empty - consider removing it".

(** [assets[0].name == "README.md"] for a listing of length one. *)
Definition only_readme (entries : list string) : bool :=
  match entries with
  | [name] => String.eqb name "README.md"
  | _ => false
  end.

(** The result of [lint]: the issues and the suggestions it prints before
    leaving with status 0.  [None] is the exit with status 1 taken when
    SKILL.md is missing. *)
Definition lint (dir : SkillDir) : option (list string * list string) :=
  if negb (path_exists dir "SKILL.md") then None
  else
    let content := skill_md_text dir in
    let issues := [] in
    let suggestions := [] in
    let todo_count := count "TODO" content in
    let issues :=
      if (0 <? todo_count)%nat
      then issues ++ ["Found " +:+ str_of_nat todo_count +:+ " TODO placeholder(s)"]
      else issues in
    let suggestions :=
      match non_imperative content with
      | [] => suggestions
      | found =>
          suggestions ++
          ["Consider using imperative voice instead of 'you' language:" +:+ nl +:+
           join nl (map (fun line => "    • " +:+ line) (take 3 found))]
      end in
    let bold_count := count "**" content in
    let suggestions :=
      if (40 <? bold_count)%nat then
        suggestions ++
        ["Lots of bold formatting (" +:+ str_of_nat (bold_count / 2) +:+ " instances). " +:+
         "Consider reducing for readability."]
      else suggestions in
    let has_scripts := path_exists dir "scripts" in
    let has_references := path_exists dir "references" in
    let has_assets := path_exists dir "assets" in
    let suggestions :=
      if has_scripts && bool_decide (iterdir dir "scripts" = [])
      then suggestions ++ [empty_dir_suggestion "scripts"] else suggestions in
    let suggestions :=
      if has_references && bool_decide (iterdir dir "references" = [])
      then suggestions ++ [empty_dir_suggestion "references"] else suggestions in
    let suggestions :=
      if has_assets &&
         (bool_decide (iterdir dir "assets" = []) || only_readme (iterdir dir "assets"))
      then suggestions ++ [empty_dir_suggestion "assets"] else suggestions in
    Some (issues, suggestions).

End Forge.

(* ===================================================================== *)
(** * forge.py: the other commands of [SkillForge] *)
(* ===================================================================== *)

Module SkillForge.
Import Py.

(** [validate]: the exit status, or the exception that leaves the
    validator uncaught. *)
Definition validate (yaml_safe_load : string -> PackageSkill.yaml_result)
    (set_iter : forall A : Type, list A -> list A)
    (dir : SkillDir) : Z + PackageSkill.exn :=
  match PackageSkill.validate yaml_safe_load set_iter dir PackageSkill.new_validator with
  | (inl is_valid, _) => inl (if is_valid then 0 else 1)
  | (inr e, _) => inr e
  end.

(** [len(s.split())]: the number of maximal runs of characters that are no
    whitespace.  [in_word] says that the character before was part of one. *)
Fixpoint words_from (s : string) (in_word : bool) : nat :=
  match s with
  | EmptyString => O
  | String c s' =>
      if isspace c then words_from s' false
      else if in_word then words_from s' true
      else S (words_from s' true)
  end.

(** [len(content.split())] *)
Definition word_count (content : string) : nat := words_from content false.

(** The entries of every depth under a directory whose name ends in
    [ext], as [rglob("*" + ext)] lists them; [files_only] keeps the regular
    files among them. *)
Fixpoint rglob_count (ext : string) (files_only : bool)
    (entries : PackageSkill.fs_entries) : nat :=
  match entries with
  | PackageSkill.FsNil => O
  | PackageSkill.FsCons name node rest =>
      (match node with
       | PackageSkill.FsFile => if endswith ext name then 1 else 0
       | PackageSkill.FsDir sub =>
           (if endswith ext name && negb files_only then 1 else 0) +
           rglob_count ext files_only sub
       end + rglob_count ext files_only rest)%nat
  end.

(** The complexity heuristic of [analyze]. *)
Inductive complexity := Low | Medium | High.

Definition complexity_of (scripts_count references_count assets_count : nat) : complexity :=
  if (3 <? scripts_count)%nat || (5 <? references_count)%nat || (10 <? assets_count)%nat
  then High
  else if (1 <? scripts_count)%nat || (2 <? references_count)%nat ||
          (3 <? assets_count)%nat
  then Medium
  else Low.

(** What [analyze] prints, value by value. *)
Record token_report := {
  estimated_tokens : nat;
  line_count : nat;
  words : nat;
  scripts_count : nat;
  references_count : nat;
  assets_count : nat;
  complexity_level : complexity;
  context_efficiency_good : bool;
  large_advice : bool
}.

(** [analyze]: [None] is the exit with status 1 taken when SKILL.md is
    missing.  [scripts], [references] and [assets] are the contents of the
    three companion directories, read where the directory exists. *)
Definition analyze (dir : SkillDir)
    (scripts references assets : PackageSkill.fs_entries) : option token_report :=
  if negb (path_exists dir "SKILL.md") then None
  else
    let content := skill_md_text dir in
    let estimated_tokens := (len content / 4)%nat in
    let line_count := length (split_char nl_char content) in
    let word_count := word_count content in
    let scripts_count :=
      if path_exists dir "scripts" then rglob_count ".py" false scripts else O in
    let references_count :=
      if path_exists dir "references" then rglob_count ".md" false references else O in
    let assets_count :=
      if path_exists dir "assets" then rglob_count "" true assets else O in
    Some {| estimated_tokens := estimated_tokens;
            line_count := line_count;
            words := word_count;
            scripts_count := scripts_count;
            references_count := references_count;
            assets_count := assets_count;
            complexity_level := complexity_of scripts_count references_count assets_count;
            context_efficiency_good := (estimated_tokens <? 4000)%nat;
            large_advice := (5000 <? estimated_tokens)%nat |}.

(** [not l.strip().startswith('license:')] *)
Definition not_license_line (l : string) : bool :=
  negb (startswith "license:" (strip l)).

(** The text [migrate] arrives at, with the changes it lists. *)
Definition migrate_text (content : string) : string * list string :=
  if startswith "---" content then
    match PackageSkill.split_max "---" 2 content with
    | [_; frontmatter; body] =>
        if str_in "license:" frontmatter then
          let lines := split_char nl_char frontmatter in
          let lines := filter (fun l => Is_true (not_license_line l)) lines in
          let frontmatter := join nl lines in
          ("---" +:+ frontmatter +:+ "---" +:+ body,
           ["Removed 'license' field from frontmatter"])
        else (content, [])
    | _ => (content, [])
    end
  else (content, []).

(** What [migrate] writes. *)
Inductive migration :=
  | UpToDate
  | Migrated (backup new_text : string) (changes : list string).

(** [migrate]: [None] is the exit with status 1 taken when SKILL.md is
    missing; otherwise the run ends with status 0. *)
Definition migrate (dir : SkillDir) : option migration :=
  if negb (path_exists dir "SKILL.md") then None
  else
    let original_content := skill_md_text dir in
    let '(content, changes) := migrate_text original_content in
    if negb (String.eqb content original_content)
    then Some (Migrated original_content content changes)
    else Some UpToDate.

End SkillForge.

(* ===================================================================== *)
(** * init_skill.py *)
(* ===================================================================== *)

Module InitSkill.
Import Py.

(** [c.isalnum()] on the code points 0..255: the ASCII digits and letters,
    and the Latin-1 letters and numeric signs. *)
Definition isalnum (c : ascii) : bool :=
  let n := nat_of_ascii c in
  ((48 <=? n) && (n <=? 57) || (65 <=? n) && (n <=? 90) || (97 <=? n) && (n <=? 122) ||
   (n =? 170) || (n =? 178) || (n =? 179) || (n =? 181) || (n =? 185) || (n =? 186) ||
   (188 <=? n) && (n <=? 190) || (192 <=? n) && (n <=? 214) ||
   (216 <=? n) && (n <=? 246) || (248 <=? n) && (n <=? 255))%nat.

(** [all(c.isalnum() or c in '-_' for c in name)] *)
Fixpoint all_name_chars (name : string) : bool :=
  match name with
  | EmptyString => true
  | String c rest =>
      (isalnum c || str_in (String c EmptyString) "-_") && all_name_chars rest
  end.

Definition validate_skill_name (name : string) : bool :=
  if negb (truthy name) then false
  else if negb (all_name_chars name) then false
  else if startswith "-" name || startswith "_" name then false
  else true.

End InitSkill.

(* ===================================================================== *)
(** * Sample skills *)
(* ===================================================================== *)

Module Samples.
Import Py.

(** A directory that holds SKILL.md with the given text and nothing else. *)
Definition lone_skill_md (text : string) : SkillDir :=
  {| path_exists := fun p => String.eqb p "SKILL.md";
     skill_md_text := text;
     iterdir := fun _ => [] |}.

(** Short description, one recommended section, three TODO markers. *)
Definition todo_doc : string :=
  join nl ["---"; "name: demo"; "description: short"; "---";
           "## Usage"; "TODO: first"; "TODO: second"; "TODO: third"].

Definition todo_skill : SkillDir := lone_skill_md todo_doc.

(** A description of exactly 100 characters that names its trigger. *)
Definition long_description : string :=
  "Formats tables in reports; the trigger is any request to align or tidy " +:+
  "columns of tabular data now..".

Definition full_doc : string :=
  join nl ["---"; "name: demo"; "description: " +:+ long_description; "---";
           "## Overview"; "Formats tables."; "## Usage"; "Run it."].

Definition full_skill : SkillDir := lone_skill_md full_doc.

(** The same header without its [name] line. *)
Definition nameless_doc : string :=
  join nl ["---"; "description: " +:+ long_description; "---"; "## Usage"; "Run it."].

Definition nameless_skill : SkillDir := lone_skill_md nameless_doc.

(** A second-level section followed by a top-level heading. *)
Definition nested_doc : string :=
  join nl ["intro"; "## A"; "x"; "# B"; "y"; "## C"; "z"].

(** A top-level heading right after the text of a second-level section. *)
Definition top_heading_doc : string := join nl ["## A"; "x"; "# B"; "y"].

(** A text with no frontmatter, next to a README. *)
Definition bare_doc : string := join nl ["# Demo"; "Some text."].

Definition bare_skill : SkillDir :=
  {| path_exists := fun p => String.eqb p "SKILL.md" || String.eqb p "README.md";
     skill_md_text := bare_doc;
     iterdir := fun _ => [] |}.

(** A valid skill whose assets directory holds the placeholder README only. *)
Definition placeholder_skill : SkillDir :=
  {| path_exists := fun p => String.eqb p "SKILL.md" || String.eqb p "assets";
     skill_md_text := full_doc;
     iterdir := fun d => if String.eqb d "assets" then ["README.md"] else [] |}.

(** The same skill with a deny-listed file and a README beside SKILL.md. *)
Definition cluttered_skill : SkillDir :=
  {| path_exists := fun p => String.eqb p "SKILL.md" || String.eqb p "README.md" ||
                             String.eqb p "CHANGELOG.md";
     skill_md_text := full_doc;
     iterdir := fun _ => [] |}.

(** What PyYAML loads from the header of [full_doc], the one header the
    samples hand to it. *)
Definition sample_yaml (header : string) : PackageSkill.yaml_result :=
  if String.eqb header
       (nl +:+ "name: demo" +:+ nl +:+ "description: " +:+ long_description +:+ nl)
  then PackageSkill.YamlValue
         (PackageSkill.YDict
            [(PackageSkill.PStr "name", PackageSkill.PStr "demo");
             (PackageSkill.PStr "description", PackageSkill.PStr long_description)])
  else PackageSkill.YamlError "not a sample header".

(** A set walked in the order in which its members were added. *)
Definition insertion_order (A : Type) (members : list A) : list A := members.

(** The analyzer objects [SkillDocAnalyzer] builds for the samples. *)
Definition analyzer_for (dir : SkillDir) : DocAnalyzer.analyzer :=
  {| DocAnalyzer.skill_path := dir;
     DocAnalyzer.content := skill_md_text dir;
     DocAnalyzer.frontmatter := DocAnalyzer._parse_frontmatter (skill_md_text dir);
     DocAnalyzer.sections := DocAnalyzer._parse_sections (skill_md_text dir);
     DocAnalyzer.scripts := DocAnalyzer._find_scripts dir |}.

Definition full_analyzer : DocAnalyzer.analyzer := analyzer_for full_skill.
Definition nameless_analyzer : DocAnalyzer.analyzer := analyzer_for nameless_skill.

(** Two score tuples that differ in the metadata sub-score only. *)
Definition low_analysis : DocAnalyzer.analysis :=
  {| DocAnalyzer.frontmatter_score := (10, 20, []);
     DocAnalyzer.structure_score := (5, 25, []);
     DocAnalyzer.example_score := (0, 30, []);
     DocAnalyzer.clarity_score := (14, 25, []);
     DocAnalyzer.overall_score := 0;
     DocAnalyzer.gaps := [];
     DocAnalyzer.suggestions := [] |}.

Definition raised_analysis : DocAnalyzer.analysis :=
  {| DocAnalyzer.frontmatter_score := (20, 20, []);
     DocAnalyzer.structure_score := (5, 25, []);
     DocAnalyzer.example_score := (0, 30, []);
     DocAnalyzer.clarity_score := (14, 25, []);
     DocAnalyzer.overall_score := 0;
     DocAnalyzer.gaps := [];
     DocAnalyzer.suggestions := [] |}.

End Samples.

(* ===================================================================== *)
(** * Further sample skills *)
(* ===================================================================== *)

Module MoreSamples.
Import Py.

(** A header that gives [name] twice. *)
Definition twice_named_doc : string :=
  join nl ["---"; "name: first"; "name: second"; "description: d"; "---"; "body"].

(** A header with a license line, and the word license in the body. *)
Definition licensed_doc : string :=
  join nl ["---"; "name: demo"; "license: MIT"; "description: d"; "---";
           "See license: MIT below."].

Definition licensed_skill : SkillDir := Samples.lone_skill_md licensed_doc.

(** A text with a link, a URL, an anchor and two code spans. *)
Definition linked_doc : string :=
  join nl ["---"; "name: demo"; "---";
           "See [guide](references/guide.md), [site](https://example.org),";
           "[top](#top), `scripts/run.py` and `notes.txt`."].

(** One TODO marker and nothing else of note. *)
Definition todo_once_skill : SkillDir :=
  Samples.lone_skill_md (join nl ["# Demo"; "TODO: write this"]).

(** A skill directory as the packager walks it. *)
Definition sample_tree : PackageSkill.fs_entries :=
  PackageSkill.FsCons "SKILL.md" PackageSkill.FsFile
  (PackageSkill.FsCons ".git"
     (PackageSkill.FsDir
        (PackageSkill.FsCons "config" PackageSkill.FsFile PackageSkill.FsNil))
  (PackageSkill.FsCons "scripts"
     (PackageSkill.FsDir
        (PackageSkill.FsCons "run.py" PackageSkill.FsFile
        (PackageSkill.FsCons "run.pyc" PackageSkill.FsFile
        (PackageSkill.FsCons "__pycache__"
           (PackageSkill.FsDir
              (PackageSkill.FsCons "run.cpython.bin" PackageSkill.FsFile
                 PackageSkill.FsNil))
           PackageSkill.FsNil))))
  (PackageSkill.FsCons ".DS_Store" PackageSkill.FsFile PackageSkill.FsNil))).

(** A loaded header whose third key is no string (as YAML's [1: x] gives). *)
Definition numeric_key_yaml (header : string) : PackageSkill.yaml_result :=
  PackageSkill.YamlValue
    (PackageSkill.YDict
       [(PackageSkill.PStr "name", PackageSkill.PStr "demo");
        (PackageSkill.PStr "description", PackageSkill.PStr Samples.long_description);
        (PackageSkill.PObj "int", PackageSkill.PStr "x")]).

(** A set walked from the member added last back to the first. *)
Definition reversed_order (A : Type) (members : list A) : list A := rev members.




(** A valid skill with a README beside SKILL.md. *)
Definition readme_skill : SkillDir :=
  {| path_exists := fun p => String.eqb p "SKILL.md" || String.eqb p "README.md";
     skill_md_text := Samples.full_doc;
     iterdir := fun _ => [] |}.

End MoreSamples.

(* ===================================================================== *)
(** * Notions used in the statements *)
(* ===================================================================== *)

(** The points one checklist title earns in [_score_structure]. *)
Definition title_points (secs : gmap string string) (title : string) : Z :=
  if DocAnalyzer.has_key secs title then 5 else 0.

(** The totals out of 100 whose binary64 quotient by 100, multiplied back
    by 100, falls just under the total. *)
Definition rounds_below (total : Z) : bool :=
  (total =? 29) || (total =? 57) || (total =? 58).

(** The percentage [print_report] derives from a total out of 100. *)
Definition printed_percent (total : Z) : Z :=
  if rounds_below total then total - 1 else total.

(** A sub-score as the scorers produce it: the given maximum, and points
    between 0 and that maximum. *)
Definition in_range (t : DocAnalyzer.score_triple) (max_score : Z) : Prop :=
  DocAnalyzer.max_points t = max_score /\ 0 <= DocAnalyzer.points t <= max_score.

Definition well_scored (a : DocAnalyzer.analysis) : Prop :=
  in_range (DocAnalyzer.frontmatter_score a) 20 /\
  in_range (DocAnalyzer.structure_score a) 25 /\
  in_range (DocAnalyzer.example_score a) 30 /\
  in_range (DocAnalyzer.clarity_score a) 25.

(** [a] and [b] agree on three sub-scores, and [b] has the larger fourth. *)
Definition raised_in_one (a b : DocAnalyzer.analysis) : Prop :=
  let p := DocAnalyzer.points in
  let f := DocAnalyzer.frontmatter_score in
  let s := DocAnalyzer.structure_score in
  let e := DocAnalyzer.example_score in
  let c := DocAnalyzer.clarity_score in
  (p (f a) <= p (f b) /\ p (s a) = p (s b) /\ p (e a) = p (e b) /\ p (c a) = p (c b)) \/
  (p (f a) = p (f b) /\ p (s a) <= p (s b) /\ p (e a) = p (e b) /\ p (c a) = p (c b)) \/
  (p (f a) = p (f b) /\ p (s a) = p (s b) /\ p (e a) <= p (e b) /\ p (c a) = p (c b)) \/
  (p (f a) = p (f b) /\ p (s a) = p (s b) /\ p (e a) = p (e b) /\ p (c a) <= p (c b)).

(** The title a second-level heading line gives its section. *)
Definition heading_title (line : string) : string := Py.strip (Py.drop_str 3 line).

(** The errors [_validate_structure] records for deny-listed files. *)
Definition deny_list_errors (dir : SkillDir) : list string :=
  map PackageSkill.extraneous_error
      (filter (fun f => Is_true (path_exists dir f)) PackageSkill.extraneous_files).

(** The warnings of the checks that follow [_validate_frontmatter], each
    under its condition: README present, referenced files missing,
    estimated tokens over 5000, lines over 500.  [refs] is the sequence in
    which the referenced files are met. *)
Definition later_warnings (dir : SkillDir) (refs : list string) : list string :=
  let content := skill_md_text dir in
  (if path_exists dir "README.md" then [PackageSkill.readme_warning] else []) ++
  map PackageSkill.missing_ref_warning
      (filter (fun fp => Is_true (negb (path_exists dir fp))) refs) ++
  (if (5000 <? Py.len content / 4)%nat
   then [PackageSkill.large_warning (Py.len content / 4)] else []) ++
  (if (500 <? length (PackageSkill.splitlines content))%nat
   then [PackageSkill.long_warning (length (PackageSkill.splitlines content))] else []).



(** What is known of the order in which a set is walked: every member is
    met, and met once. *)
Definition walks_each_member_once (set_iter : forall A : Type, list A -> list A) : Prop :=
  forall (A : Type) (members : list A), set_iter A members ≡ₚ members.





(** The directory [dir] with other directory listings. *)
Definition with_listing (dir : SkillDir) (listing : string -> list string) : SkillDir :=
  {| path_exists := path_exists dir;
     skill_md_text := skill_md_text dir;
     iterdir := listing |}.

(** A title is that of a second-level heading among the lines [seen]. *)
Definition heading_seen (seen : list string) (title : string) : Prop :=
  title <> "" /\
  exists line,
    line ∈ seen /\ Py.startswith "## " line = true /\ heading_title line = title.

(** A text none of whose lines is a second-level heading. *)
Definition heading_free (text : string) : Prop :=
  Forall (fun line => Py.startswith "## " line = false)
         (Py.split_char Py.nl_char text).

(** A line that holds no line feed: splitting it gives the line itself. *)
Definition one_line (l : string) : Prop := Py.split_char Py.nl_char l = [l].

(** The key a frontmatter line stores its value under, when it has a colon. *)
Definition line_key (line : string) : option string :=
  match Py.partition ":" line with
  | Some (key, _) => Some (Py.strip key)
  | None => None
  end.

(** [rel] is the path, from a directory with the given entries, of a
    regular file in it or below it. *)
Inductive tree_file : PackageSkill.fs_entries -> list string -> Prop :=
  | tree_file_here name rest :
      tree_file (PackageSkill.FsCons name PackageSkill.FsFile rest) [name]
  | tree_file_below name sub rest rel :
      tree_file sub rel ->
      tree_file (PackageSkill.FsCons name (PackageSkill.FsDir sub) rest) (name :: rel)
  | tree_file_next name node rest rel :
      tree_file rest rel ->
      tree_file (PackageSkill.FsCons name node rest) rel.

(** A relative path the packager accepts: no directory on it is hidden or
    [__pycache__], and the file is neither hidden nor compiled Python. *)
Fixpoint packable (rel : list string) : bool :=
  match rel with
  | [] => false
  | [file] => PackageSkill.keep_file file
  | d :: rest => PackageSkill.keep_dir d && packable rest
  end.

(** Low, Medium and High in increasing order. *)
Definition complexity_rank (c : SkillForge.complexity) : nat :=
  match c with
  | SkillForge.Low => 0
  | SkillForge.Medium => 1
  | SkillForge.High => 2
  end.

(** The lines [migrate] keeps of a header. *)
Definition kept_lines (header : string) : list string :=
  filter (fun l => Is_true (SkillForge.not_license_line l))
         (Py.split_char Py.nl_char header).

(** A header none of whose lines, trimmed, starts with "license:". *)
Definition license_free (header : string) : Prop :=
  Forall (fun l => SkillForge.not_license_line l = true)
         (Py.split_char Py.nl_char header).

(** The directory [dir] once SKILL.md holds [text]. *)
Definition with_skill_md (dir : SkillDir) (text : string) : SkillDir :=
  {| path_exists := path_exists dir;
     skill_md_text := text;
     iterdir := iterdir dir |}.

(** The rank one count reaches by itself: 2 above [high], 1 above
    [medium], else 0. *)
Definition count_rank (medium high n : nat) : nat :=
  if (high <? n)%nat then 2 else if (medium <? n)%nat then 1 else 0.

(** The characters of a string. *)
Fixpoint chars (s : string) : list ascii :=
  match s with
  | EmptyString => []
  | String c s' => c :: chars s'
  end.

(* ===================================================================== *)
(** * The four sub-scores *)
(* ===================================================================== *)

Section SubScores.
Import Py DocAnalyzer.

Variable self : analyzer.

Lemma frontmatter_score_range :
  max_points (_score_frontmatter self) = 20 /\
  0 <= points (_score_frontmatter self) <= 20.
Proof.
  unfold _score_frontmatter, points, max_points.
  destruct (has_key (frontmatter self) "name");
    destruct (frontmatter self !! "description") as [desc|];
    try (destruct (50 <? len desc)%nat; destruct (str_in "TODO" desc);
         destruct (existsb _ trigger_keywords));
    cbn; lia.
Qed.

Lemma structure_step_points secs acc title :
  (structure_step secs acc (title, 5)).1 = acc.1 + title_points secs title.
Proof.
  destruct acc as [score issues]. unfold structure_step, title_points.
  destruct (has_key secs title); cbn; lia.
Qed.

Lemma structure_score_sum :
  points (_score_structure self) =
    title_points (sections self) "Purpose" +
    title_points (sections self) "Usage" +
    title_points (sections self) "Bundled Resources" +
    title_points (sections self) "Best Practices" +
    title_points (sections self) "Troubleshooting"
  /\ max_points (_score_structure self) = 25.
Proof.
  unfold _score_structure, points, max_points, recommended_sections.
  change (or_str "Purpose" "Overview") with "Purpose".
  cbn [foldl].
  destruct (structure_step _ (structure_step _ (structure_step _ (structure_step _
              (structure_step _ (0, []) _) _) _) _) _) as [score issues] eqn:E.
  cbn. split; [|reflexivity].
  apply (f_equal fst) in E.
  rewrite !structure_step_points in E. cbn [fst] in E. lia.
Qed.

Lemma title_points_range secs title : 0 <= title_points secs title <= 5.
Proof. unfold title_points. destruct (has_key secs title); lia. Qed.

Lemma structure_score_range :
  max_points (_score_structure self) = 25 /\
  0 <= points (_score_structure self) <= 25.
Proof.
  destruct structure_score_sum as [-> ->]. split; [reflexivity|].
  pose proof (title_points_range (sections self) "Purpose").
  pose proof (title_points_range (sections self) "Usage").
  pose proof (title_points_range (sections self) "Bundled Resources").
  pose proof (title_points_range (sections self) "Best Practices").
  pose proof (title_points_range (sections self) "Troubleshooting").
  lia.
Qed.

Lemma example_score_range :
  max_points (_score_examples self) = 30 /\
  0 <= points (_score_examples self) <= 30.
Proof.
  unfold _score_examples, points, max_points.
  destruct (length (code_blocks (content self))) as [|[|[|n]]]; cbn; lia.
Qed.

Lemma clarity_score_range :
  max_points (_score_clarity self) = 25 /\
  5 <= points (_score_clarity self) <= 25.
Proof.
  unfold _score_clarity, points, max_points.
  set (todo_count := count "todo" (lower (content self))).
  destruct (0 <? todo_count)%nat eqn:Htodo;
    destruct (3 <? vague_count (content self))%nat;
    destruct (has_key (sections self) "When to Use" || str_in "When to use" (content self));
    cbn; try lia;
    apply Nat.ltb_lt in Htodo; lia.
Qed.

Lemma total_score_range :
  total_max (analyze self) = 100 /\ 5 <= total_score (analyze self) <= 100.
Proof.
  unfold total_max, total_score, analyze; cbn.
  destruct frontmatter_score_range as [-> ?], structure_score_range as [-> ?],
    example_score_range as [-> ?], clarity_score_range as [-> ?].
  lia.
Qed.

End SubScores.

(* ===================================================================== *)
(** * The overall percentage *)
(* ===================================================================== *)

Section Overall.
Import Py DocAnalyzer.

(** Every total from 0 to 100, checked by evaluating the binary64 model. *)
Lemma overall_percent_table :
  forallb (fun k => match overall_percent (Z.of_nat k) 100 with
                    | Some pct => pct =? printed_percent (Z.of_nat k)
                    | None => false
                    end) (seq 0 101) = true.
Proof. vm_compute. reflexivity. Qed.

Lemma overall_percent_100 total :
  0 <= total <= 100 -> overall_percent total 100 = Some (printed_percent total).
Proof.
  intros Hrange.
  pose proof overall_percent_table as Htable.
  rewrite forallb_forall in Htable.
  specialize (Htable (Z.to_nat total)).
  rewrite Z2Nat.id in Htable by lia.
  destruct (overall_percent total 100) as [pct|].
  - f_equal. apply Z.eqb_eq, Htable, in_seq. lia.
  - discriminate Htable. apply in_seq. lia.
Qed.

Lemma printed_percent_mono t1 t2 :
  t1 <= t2 -> printed_percent t1 <= printed_percent t2.
Proof.
  unfold printed_percent, rounds_below.
  destruct (t1 =? 29) eqn:?, (t1 =? 57) eqn:?, (t1 =? 58) eqn:?,
    (t2 =? 29) eqn:?, (t2 =? 57) eqn:?, (t2 =? 58) eqn:?; cbn; lia.
Qed.

Lemma printed_percent_bounds total :
  total - 1 <= printed_percent total <= total.
Proof. unfold printed_percent. destruct (rounds_below total); lia. Qed.

(** [print_report] never raises: the maxima add up to 100, and the report
    carries the sums, the truncated percentage and its band. *)
Lemma print_report_total (self : analyzer) :
  exists r,
    print_report self = Some r /\
    r_total_score r = total_score (analyze self) /\
    r_total_max r = 100 /\
    r_overall_pct r = printed_percent (r_total_score r) /\
    r_band r = classify (r_overall_pct r).
Proof.
  destruct (total_score_range self) as [Hmax Hscore].
  unfold print_report. rewrite Hmax, overall_percent_100 by lia.
  eexists. split; [reflexivity|]. cbn. auto.
Qed.

Lemma analyze_well_scored (self : analyzer) : well_scored (analyze self).
Proof.
  unfold well_scored, in_range, analyze; cbn.
  pose proof (frontmatter_score_range self).
  pose proof (structure_score_range self).
  pose proof (example_score_range self).
  pose proof (clarity_score_range self).
  intuition lia.
Qed.

Lemma well_scored_total (a : analysis) :
  well_scored a -> total_max a = 100 /\ 0 <= total_score a <= 100.
Proof.
  unfold well_scored, in_range, total_max, total_score.
  intros ([-> ?] & [-> ?] & [-> ?] & [-> ?]). lia.
Qed.

(** C6: for every input document, each of the four sub-scores (metadata
    max 20, structure max 25, examples max 30, clarity max 25) returned by
    the scorer lies between 0 and its maximum.  The scorers apply no clamp:
    their additions and deductions never leave the range. *)
Theorem sub_scores_within_bounds (self : analyzer) :
  well_scored (analyze self).
Proof. exact (analyze_well_scored self). Qed.

(** C10: the dictionary [analyze] returns has [overall_score] equal to 0 for
    every document; the percentage is derived inside [print_report] only,
    where it is always positive, so it is never the stored entry. *)
Theorem analyze_leaves_overall_score_zero (self : analyzer) :
  overall_score (analyze self) = 0 /\
  exists r, print_report self = Some r /\
            r_overall_pct r = printed_percent (total_score (analyze self)) /\
            overall_score (analyze self) < r_overall_pct r.
Proof.
  split; [reflexivity|].
  destruct (print_report_total self) as (r & Hr & Hscore & _ & Hpct & _).
  exists r. rewrite Hpct, Hscore. repeat split; [assumption|].
  destruct (total_score_range self) as [_ Htotal].
  pose proof (printed_percent_bounds (total_score (analyze self))).
  cbn. lia.
Qed.

(** C9: the overall percentage is monotonically non-decreasing in each
    sub-score: of two score tuples that agree on three sub-scores, the one
    with the larger fourth gets an overall percentage at least as large. *)
Theorem overall_monotone_in_each_sub_score (a b : analysis) :
  well_scored a -> well_scored b -> raised_in_one a b ->
  exists pa pb,
    overall_percent (total_score a) (total_max a) = Some pa /\
    overall_percent (total_score b) (total_max b) = Some pb /\
    pa <= pb.
Proof.
  intros Ha Hb Hraised.
  destruct (well_scored_total a Ha) as [-> Hta].
  destruct (well_scored_total b Hb) as [-> Htb].
  rewrite !overall_percent_100 by assumption.
  do 2 eexists. repeat split.
  apply printed_percent_mono.
  unfold raised_in_one, total_score in *. cbn zeta in Hraised. lia.
Qed.

Lemma overall_monotone_witness :
  exists pa pb,
    overall_percent (total_score Samples.low_analysis)
                    (total_max Samples.low_analysis) = Some pa /\
    overall_percent (total_score Samples.raised_analysis)
                    (total_max Samples.raised_analysis) = Some pb /\
    pa <= pb.
Proof.
  apply (overall_monotone_in_each_sub_score Samples.low_analysis Samples.raised_analysis).
  - unfold well_scored, in_range; cbn; lia.
  - unfold well_scored, in_range; cbn; lia.
  - unfold raised_in_one; cbn; lia.
Defined.

(** C1, at a document the code mishandles: [todo_doc] earns 29 points out
    of 100, and the report prints 28 percent for it, where
    round(100 * 29 / 100) is 29. *)
Theorem todo_skill_report_prints_28_for_29 :
  overall_line <$> main Samples.todo_skill = Some (29, 100, 28, NeedsImprovement).
Proof. vm_compute. reflexivity. Qed.

End Overall.

(* ===================================================================== *)
(** * Substring search and lower-casing *)
(* ===================================================================== *)

Section Strings.
Import Py.

Lemma startswith_app_l p q s :
  startswith (p +:+ q) s = true -> startswith p s = true.
Proof.
  revert s. induction p as [|a p IH]; intros s H; [reflexivity|].
  change (String a p +:+ q) with (String a (p +:+ q)) in H.
  destruct s as [|b s]; cbn [startswith] in *; [discriminate H|].
  destruct (Ascii.eqb a b); [auto | discriminate H].
Qed.

Lemma startswith_lower p s :
  lower p = p -> startswith p s = true -> startswith p (lower s) = true.
Proof.
  revert s. induction p as [|a p IH]; intros s Hp Hs; [reflexivity|].
  destruct s as [|b s]; cbn [lower startswith] in *; [discriminate Hs|].
  injection Hp as Ha Hp.
  destruct (Ascii.eqb a b) eqn:Hab; [|discriminate Hs].
  apply Ascii.eqb_eq in Hab. subst b.
  rewrite Ha, Ascii.eqb_refl. auto.
Qed.

(** A substring written in lower case survives [lower]. *)
Lemma str_in_lower sub s :
  lower sub = sub -> str_in sub s = true -> str_in sub (lower s) = true.
Proof.
  intros Hsub. induction s as [|c s IH]; cbn [str_in lower]; intros H;
    apply orb_true_iff in H; apply orb_true_iff.
  - destruct H as [H|H]; [|discriminate H].
    left. exact (startswith_lower sub "" Hsub H).
  - destruct H as [H|H].
    + left. exact (startswith_lower sub (String c s) Hsub H).
    + right. auto.
Qed.

Lemma drop_str_len n s : len (drop_str n s) = (len s - n)%nat.
Proof.
  revert s. induction n as [|n IH]; intros [|c s]; cbn [drop_str len String.length];
    try reflexivity.
  apply IH.
Qed.

Lemma startswith_len p s : startswith p s = true -> (len p <= len s)%nat.
Proof.
  revert s. induction p as [|a p IH]; intros [|b s]; cbn; try lia; try discriminate.
  destruct (Ascii.eqb a b); [|discriminate]. intros H. apply IH in H. unfold len in H. lia.
Qed.

(** What [partition] leaves after the separator is shorter than the text
    by at least the separator. *)
Lemma partition_after_len sub s before after :
  partition sub s = Some (before, after) -> (len after + len sub <= len s)%nat.
Proof.
  revert before. induction s as [|c s IH]; intros before; cbn [partition].
  - destruct (startswith sub "") eqn:Hstart; [|discriminate].
    intros [= <- <-]. apply startswith_len in Hstart. rewrite drop_str_len. lia.
  - destruct (startswith sub (String c s)) eqn:Hstart.
    + intros [= <- <-]. apply startswith_len in Hstart. rewrite drop_str_len. lia.
    + destruct (partition sub s) as [[b a]|]; [|discriminate].
      intros [= <- <-]. specialize (IH b eq_refl). cbn [len String.length] in *.
      unfold len in *. lia.
Qed.

(** A scan whose matches consume text gives the same result on any fuel
    beyond the length of the text: [findall] never runs out. *)
Lemma findall_fuel_enough {A : Type} (try : string -> option (A * string)) :
  (forall s m rest, try s = Some (m, rest) -> (len rest < len s)%nat) ->
  forall fuel fuel' s,
    (len s < fuel)%nat -> (len s < fuel')%nat ->
    findall_fuel try fuel s = findall_fuel try fuel' s.
Proof.
  intros Hshrink. induction fuel as [|fuel IH]; intros fuel' s Hfuel Hfuel'; [lia|].
  destruct fuel' as [|fuel']; [lia|]. cbn [findall_fuel].
  destruct (try s) as [[m rest]|] eqn:Htry.
  - apply Hshrink in Htry. f_equal. apply IH; lia.
  - destruct s as [|c s]; [reflexivity|]. cbn [len String.length] in *.
    apply IH; unfold len; lia.
Qed.

Lemma fence_match_shrinks s m rest :
  DocAnalyzer.fence_match s = Some (m, rest) -> (len rest < len s)%nat.
Proof.
  unfold DocAnalyzer.fence_match.
  destruct (startswith "```" s) eqn:Hopen; [|discriminate].
  destruct (partition "```" (drop_str 3 s)) as [[body after]|] eqn:Hclose; [|discriminate].
  intros [= <- <-]. apply partition_after_len in Hclose. apply startswith_len in Hopen.
  rewrite drop_str_len in Hclose. cbn [len String.length] in *. lia.
Qed.

Lemma span_until_len stop s run rest :
  PackageSkill.span_until stop s = (run, rest) -> (len rest <= len s)%nat.
Proof.
  revert run. induction s as [|c s IH]; intros run; cbn [PackageSkill.span_until].
  - intros [= <- <-]. reflexivity.
  - destruct (Ascii.eqb c stop).
    + intros [= <- <-]. reflexivity.
    + destruct (PackageSkill.span_until stop s) as [run' rest'].
      intros [= <- <-]. specialize (IH run' eq_refl).
      unfold len in *. cbn [String.length]. lia.
Qed.

Lemma link_match_shrinks s m rest :
  PackageSkill.link_match s = Some (m, rest) -> (len rest < len s)%nat.
Proof.
  unfold PackageSkill.link_match.
  destruct s as [|c s1]; [discriminate|].
  destruct (Ascii.eqb c "[") eqn:Hc;
    [apply Ascii.eqb_eq in Hc; subst c
    |apply Ascii.eqb_neq in Hc;
     destruct c as [[] [] [] [] [] [] [] []]; try discriminate; contradiction].
  destruct (PackageSkill.span_until "]" s1) as [text r1] eqn:Htext.
  destruct (truthy text && startswith "](" r1); [|discriminate].
  destruct (PackageSkill.span_until ")" (drop_str 2 r1)) as [target r2] eqn:Htarget.
  destruct (truthy target && startswith ")" r2); [|discriminate].
  intros [= <- <-].
  apply span_until_len in Htext. apply span_until_len in Htarget.
  rewrite drop_str_len in *. unfold len in *.
  destruct r2; cbn [String.length] in *; lia.
Qed.

Lemma code_span_match_shrinks s m rest :
  PackageSkill.code_span_match s = Some (m, rest) -> (len rest < len s)%nat.
Proof.
  unfold PackageSkill.code_span_match.
  destruct s as [|c s1]; [discriminate|].
  destruct (Ascii.eqb c "`") eqn:Hc;
    [apply Ascii.eqb_eq in Hc; subst c
    |apply Ascii.eqb_neq in Hc;
     destruct c as [[] [] [] [] [] [] [] []]; try discriminate; contradiction].
  destruct (PackageSkill.span_until "`" s1) as [name r1] eqn:Hname.
  destruct (startswith "`" r1); [|discriminate].
  destruct (List.find _ PackageSkill.ref_extensions); [|discriminate].
  intros [= <- <-].
  apply span_until_len in Hname.
  unfold len in *. destruct r1; cbn [String.length] in *; lia.
Qed.

(** The three scans of the programs are the same on any larger fuel. *)
Lemma code_blocks_fuel fuel text :
  (len text < fuel)%nat ->
  findall_fuel DocAnalyzer.fence_match fuel text = DocAnalyzer.code_blocks text.
Proof.
  intros H. apply (findall_fuel_enough _ fence_match_shrinks); [exact H | lia].
Qed.

Lemma link_scan_fuel fuel text :
  (len text < fuel)%nat ->
  findall_fuel PackageSkill.link_match fuel text = findall PackageSkill.link_match text.
Proof.
  intros H. apply (findall_fuel_enough _ link_match_shrinks); [exact H | lia].
Qed.

Lemma code_span_scan_fuel fuel text :
  (len text < fuel)%nat ->
  findall_fuel PackageSkill.code_span_match fuel text =
  findall PackageSkill.code_span_match text.
Proof.
  intros H. apply (findall_fuel_enough _ code_span_match_shrinks); [exact H | lia].
Qed.

End Strings.

(* ===================================================================== *)
(** * Metadata and structure scoring *)
(* ===================================================================== *)

Section Scoring.
Import Py DocAnalyzer.

(** C7, as the code has it: for every document whose frontmatter holds a
    [name] and a description of exactly 100 characters that contains the
    word "trigger" and no TODO marker, the metadata sub-score is 20 out of
    20, with no issue reported. *)
Theorem named_trigger_description_scores_20 (self : analyzer) (desc : string) :
  has_key (frontmatter self) "name" = true ->
  frontmatter self !! "description" = Some desc ->
  len desc = 100%nat ->
  str_in "trigger" desc = true ->
  str_in "TODO" desc = false ->
  _score_frontmatter self = (20, 20, []).
Proof.
  intros Hname Hdesc Hlen Htrigger Htodo.
  unfold _score_frontmatter. rewrite Hname, Hdesc, Hlen, Htodo.
  assert (existsb (fun kw => str_in kw (lower desc)) trigger_keywords = true) as ->.
  { apply existsb_exists. exists "trigger". split.
    - unfold trigger_keywords. cbn. auto.
    - apply str_in_lower; [reflexivity | assumption]. }
  reflexivity.
Qed.

Lemma named_trigger_description_witness :
  SkillDocAnalyzer Samples.full_skill = Some Samples.full_analyzer /\
  _score_frontmatter Samples.full_analyzer = (20, 20, []).
Proof.
  split; [reflexivity|].
  apply (named_trigger_description_scores_20 Samples.full_analyzer Samples.long_description);
    vm_compute; reflexivity.
Defined.

(** C7 as stated fails where the frontmatter has no [name]: the same
    100-character description earns 15 of 20. *)
Lemma nameless_description_scores_15 :
  SkillDocAnalyzer Samples.nameless_skill = Some Samples.nameless_analyzer /\
  frontmatter Samples.nameless_analyzer !! "description" = Some Samples.long_description /\
  len Samples.long_description = 100%nat /\
  str_in "trigger" Samples.long_description = true /\
  str_in "TODO" Samples.long_description = false /\
  _score_frontmatter Samples.nameless_analyzer =
    (15, 20, ["Missing 'name' field in frontmatter"]).
Proof. repeat split; vm_compute; reflexivity. Qed.

(** C4: the structure scorer awards 5 points for each of its five checklist
    titles found among the sections.  The entry written
    ['Purpose' or 'Overview'] is the title 'Purpose' alone: a document with
    an 'Overview' section and no 'Purpose' section gets 0 points from it. *)
Theorem structure_checklist_purpose_only (self : analyzer) :
  map fst recommended_sections =
    ["Purpose"; "Usage"; "Bundled Resources"; "Best Practices"; "Troubleshooting"] /\
  points (_score_structure self) =
    title_points (sections self) "Purpose" +
    title_points (sections self) "Usage" +
    title_points (sections self) "Bundled Resources" +
    title_points (sections self) "Best Practices" +
    title_points (sections self) "Troubleshooting" /\
  (has_key (sections self) "Overview" = true ->
   has_key (sections self) "Purpose" = false ->
   structure_step (sections self) (0, []) (or_str "Purpose" "Overview", 5) =
     (0, ["Missing recommended section: Purpose"]) /\
   points (_score_structure self) =
     title_points (sections self) "Usage" +
     title_points (sections self) "Bundled Resources" +
     title_points (sections self) "Best Practices" +
     title_points (sections self) "Troubleshooting").
Proof.
  split; [reflexivity|].
  destruct (structure_score_sum self) as [Hsum _].
  split; [exact Hsum|].
  intros _ Hpurpose. split.
  - change (or_str "Purpose" "Overview") with "Purpose".
    unfold structure_step. rewrite Hpurpose. reflexivity.
  - rewrite Hsum. unfold title_points at 1. rewrite Hpurpose. lia.
Qed.

Lemma structure_checklist_witness :
  has_key (sections Samples.full_analyzer) "Overview" = true /\
  has_key (sections Samples.full_analyzer) "Purpose" = false /\
  structure_step (sections Samples.full_analyzer) (0, [])
    (or_str "Purpose" "Overview", 5) = (0, ["Missing recommended section: Purpose"]) /\
  points (_score_structure Samples.full_analyzer) = 5.
Proof.
  assert (has_key (sections Samples.full_analyzer) "Overview" = true) as Hoverview
    by (vm_compute; reflexivity).
  assert (has_key (sections Samples.full_analyzer) "Purpose" = false) as Hpurpose
    by (vm_compute; reflexivity).
  destruct (structure_checklist_purpose_only Samples.full_analyzer) as (_ & _ & Hentry).
  destruct (Hentry Hoverview Hpurpose) as [Hstep _].
  split; [exact Hoverview|]. split; [exact Hpurpose|]. split; [exact Hstep|].
  vm_compute. reflexivity.
Defined.

End Scoring.

(* ===================================================================== *)
(** * Section extraction *)
(* ===================================================================== *)

Section Sections.
Import Py DocAnalyzer.

Lemma section_open_named title : title <> "" -> section_open (Some title) = Some title.
Proof. intros H. destruct title; [contradiction | reflexivity]. Qed.

Lemma section_open_inv cur name : section_open cur = Some name -> cur = Some name.
Proof.
  destruct cur as [[|c title]|]; cbn; intros H; try discriminate H; exact H.
Qed.

(** Storing the open section touches no other title. *)
Lemma flush_lookup_other st title :
  section_open (current_section st) <> Some title ->
  flush st !! title = st_sections st !! title.
Proof.
  intros Hother. unfold flush.
  destruct (section_open (current_section st)) as [name|]; [|reflexivity].
  apply lookup_insert_ne. congruence.
Qed.

(** Inside an open section, lines that are no second-level heading pile up
    in [current_content]. *)
Lemma foldl_section_body body : forall st name,
  section_open (current_section st) = Some name ->
  Forall (fun line => startswith "## " line = false) body ->
  foldl sections_step st body =
    {| st_sections := st_sections st;
       current_section := current_section st;
       current_content := current_content st ++ body |}.
Proof.
  induction body as [|line body IH]; intros st name Hopen Hbody.
  - cbn. rewrite app_nil_r. destruct st; reflexivity.
  - inversion Hbody as [|? ? Hline Hrest]; subst.
    cbn [foldl]. unfold sections_step at 2. rewrite Hline, Hopen.
    rewrite (IH _ name); [|exact Hopen|exact Hrest].
    cbn. rewrite <- app_assoc. reflexivity.
Qed.

(** Later lines leave a title alone unless a heading carries it. *)
Lemma foldl_keeps_title lines title : forall st,
  section_open (current_section st) <> Some title ->
  Forall (fun line => startswith "## " line = true -> heading_title line <> title) lines ->
  flush (foldl sections_step st lines) !! title = st_sections st !! title.
Proof.
  induction lines as [|line lines IH]; intros st Hcur Hlines.
  - cbn. apply flush_lookup_other, Hcur.
  - inversion Hlines as [|? ? Hline Hrest]; subst.
    cbn [foldl]. rewrite IH; [| |exact Hrest].
    + unfold sections_step.
      destruct (startswith "## " line); cbn [st_sections].
      * apply flush_lookup_other, Hcur.
      * destruct (section_open (current_section st)); reflexivity.
    + unfold sections_step.
      destruct (startswith "## " line) eqn:Hh2; cbn [current_section].
      * intros Hopen. apply section_open_inv in Hopen.
        injection Hopen as Hopen. exact (Hline eq_refl Hopen).
      * destruct (section_open (current_section st)) eqn:Hopen;
          cbn [current_section]; congruence.
Qed.

(** C5, as the code has it: the content of a section with a non-empty
    title runs from its '## ' heading line (exclusive) to the next line that
    starts with '## ' (exclusive) or to the end of the document, whatever
    the lines in between are, provided no later heading reuses the
    title. *)
Theorem section_runs_to_next_second_level_heading
    (content : string) (before : list string) (heading : string)
    (body after : list string) :
  split_char nl_char content = before ++ heading :: body ++ after ->
  startswith "## " heading = true ->
  heading_title heading <> "" ->
  Forall (fun line => startswith "## " line = false) body ->
  match after with
  | [] => True
  | next :: _ => startswith "## " next = true
  end ->
  Forall (fun line => startswith "## " line = true ->
                      heading_title line <> heading_title heading) after ->
  _parse_sections content !! heading_title heading = Some (join nl body).
Proof.
  intros Hlines Hheading Htitle Hbody Hnext Hafter.
  unfold _parse_sections, parse_section_lines. rewrite Hlines.
  rewrite foldl_app. cbn [foldl].
  set (st0 := foldl sections_step sections_init before).
  unfold sections_step at 2. rewrite Hheading.
  rewrite foldl_app.
  rewrite (foldl_section_body body _ (heading_title heading));
    [|exact (section_open_named _ Htitle)|exact Hbody].
  cbn [st_sections current_section current_content app].
  set (st2 := {| st_sections := flush st0;
                 current_section := Some (strip (drop_str 3 heading));
                 current_content := body |}).
  assert (flush st2 !! heading_title heading = Some (join nl body)) as Hstored.
  { unfold flush, st2. cbn [st_sections current_section current_content].
    fold (heading_title heading). rewrite (section_open_named _ Htitle).
    apply lookup_insert_eq. }
  destruct after as [|next after]; [exact Hstored|].
  inversion Hafter as [|? ? Hfirst Hrest]; subst.
  cbn [foldl]. unfold sections_step at 2. rewrite Hnext.
  rewrite foldl_keeps_title; [exact Hstored| |exact Hrest].
  cbn [current_section]. intros Hopen. apply section_open_inv in Hopen.
  injection Hopen as Hopen. exact (Hfirst Hnext Hopen).
Qed.

Lemma section_runs_witness :
  _parse_sections Samples.nested_doc !! heading_title "## A" =
    Some (join nl ["x"; "# B"; "y"]).
Proof.
  apply (section_runs_to_next_second_level_heading
           Samples.nested_doc ["intro"] "## A" ["x"; "# B"; "y"] ["## C"; "z"]).
  - vm_compute. reflexivity.
  - reflexivity.
  - vm_compute. discriminate.
  - repeat constructor.
  - reflexivity.
  - repeat constructor; vm_compute; discriminate.
Defined.

(** C5 as stated fails at a top-level heading: the '# B' line after the
    text of section 'A' does not end the section, it is part of its
    content, together with what follows it. *)
Lemma top_heading_stays_in_section :
  split_char nl_char Samples.top_heading_doc = ["## A"; "x"; "# B"; "y"] /\
  _parse_sections Samples.top_heading_doc !! "A" =
    Some ("x" +:+ nl +:+ "# B" +:+ nl +:+ "y").
Proof. split; vm_compute; reflexivity. Qed.

End Sections.

(* ===================================================================== *)
(** * Validation *)
(* ===================================================================== *)

Section Validation.
Import Py PackageSkill.

Variable yaml_safe_load : string -> yaml_result.
Variable set_iter : forall A : Type, list A -> list A.
Variable dir : SkillDir.

Hypothesis set_iter_walks : walks_each_member_once set_iter.

(** A loop of conditional warnings appends the warnings of the elements
    whose condition holds, in order. *)
Lemma for_each_warnings {A : Type} (cond : A -> bool) (msg : A -> string) (xs : list A) :
  forall v,
    for_each xs (fun x => when (cond x) (add_warning (msg x))) v =
    (inl tt, {| errors := errors v;
                warnings := warnings v ++
                            map msg (filter (fun x => Is_true (cond x)) xs) |}).
Proof.
  induction xs as [|x xs IH]; intros v.
  - cbn. rewrite app_nil_r. destruct v; reflexivity.
  - cbn [for_each]. unfold bind at 1, when at 1.
    destruct (cond x) eqn:Hx.
    + rewrite filter_cons_True by (rewrite Hx; exact I).
      unfold add_warning at 1. rewrite IH. cbn. rewrite <- app_assoc. reflexivity.
    + rewrite filter_cons_False by (rewrite Hx; exact id).
      unfold ret at 1. apply IH.
Qed.

(** The same for a loop of conditional errors. *)
Lemma for_each_errors {A : Type} (cond : A -> bool) (msg : A -> string) (xs : list A) :
  forall v,
    for_each xs (fun x => when (cond x) (add_error (msg x))) v =
    (inl tt, {| errors := errors v ++
                          map msg (filter (fun x => Is_true (cond x)) xs);
                warnings := warnings v |}).
Proof.
  induction xs as [|x xs IH]; intros v.
  - cbn. rewrite app_nil_r. destruct v; reflexivity.
  - cbn [for_each]. unfold bind at 1, when at 1.
    destruct (cond x) eqn:Hx.
    + rewrite filter_cons_True by (rewrite Hx; exact I).
      unfold add_error at 1. rewrite IH. cbn. rewrite <- app_assoc. reflexivity.
    + rewrite filter_cons_False by (rewrite Hx; exact id).
      unfold ret at 1. apply IH.
Qed.

Lemma bind_returns {A B : Type} (m : M A) (k : A -> M B) v a v' :
  m v = (inl a, v') -> bind m k v = k a v'.
Proof. intros H. unfold bind. rewrite H. reflexivity. Qed.

Lemma bind_raises {A B : Type} (m : M A) (k : A -> M B) v e v' :
  m v = (inr e, v') -> bind m k v = (inr e, v').
Proof. intros H. unfold bind. rewrite H. reflexivity. Qed.

Lemma when_warning (c : bool) (w : string) v :
  when c (add_warning w) v =
  (inl tt, {| errors := errors v;
              warnings := warnings v ++ (if c then [w] else []) |}).
Proof.
  destruct c; [reflexivity|].
  unfold when, ret. rewrite app_nil_r. destruct v; reflexivity.
Qed.

Lemma validate_structure_returns v :
  _validate_structure dir v =
  (inl tt, {| errors := errors v ++ deny_list_errors dir;
              warnings := warnings v ++
                          (if path_exists dir "README.md" then [readme_warning] else []) |}).
Proof.
  unfold _validate_structure.
  rewrite (bind_returns _ _ _ _ _ (when_warning _ _ v)).
  rewrite for_each_errors. reflexivity.
Qed.

Lemma check_file_references_returns v :
  _check_file_references set_iter dir v =
  (inl tt, {| errors := errors v;
              warnings := warnings v ++
                map missing_ref_warning
                    (filter (fun fp => Is_true (negb (path_exists dir fp)))
                            (set_iter _ (referenced_files (skill_md_text dir)))) |}).
Proof. unfold _check_file_references. apply for_each_warnings. Qed.

Lemma check_token_budget_returns v :
  _check_token_budget dir v =
  (inl tt, {| errors := errors v;
              warnings := warnings v ++
                (if (5000 <? len (skill_md_text dir) / 4)%nat
                 then [large_warning (len (skill_md_text dir) / 4)] else []) ++
                (if (500 <? length (splitlines (skill_md_text dir)))%nat
                 then [long_warning (length (splitlines (skill_md_text dir)))] else []) |}).
Proof.
  unfold _check_token_budget.
  rewrite (bind_returns _ _ _ _ _ (when_warning _ _ v)).
  rewrite when_warning. cbn [errors warnings]. rewrite <- app_assoc. reflexivity.
Qed.



(** It fails exactly where one of the keys is no string. *)
Lemma str_keys_none keys :
  str_keys keys = None <-> exists ty, PObj ty ∈ keys.
Proof.
  induction keys as [|[s|ty] keys IH]; cbn [str_keys].
  - split; [discriminate|]. intros [ty Hin]. apply elem_of_nil in Hin. contradiction.
  - destruct (str_keys keys) as [ss|].
    + split; [discriminate|]. intros [ty Hin].
      apply elem_of_cons in Hin as [Heq|Hin]; [discriminate Heq|].
      assert (Some ss = None) as Hbad by (apply IH; exists ty; exact Hin).
      discriminate Hbad.
    + split; [|reflexivity]. intros _.
      destruct (proj1 IH eq_refl) as [ty Hin].
      exists ty. apply elem_of_cons. right. exact Hin.
  - split; [|reflexivity]. intros _. exists ty. apply elem_of_cons. left. reflexivity.
Qed.


(** And whatever the order, a key that is no string is met. *)
Lemma str_keys_walk_none keys :
  str_keys keys = None -> str_keys (set_iter _ keys) = None.
Proof.
  intros Hkeys. apply str_keys_none in Hkeys as [ty Hin].
  apply str_keys_none. exists ty.
  rewrite (set_iter_walks _ keys). exact Hin.
Qed.


(** [_validate_frontmatter] records no error of its own; where it raises a
    [ValidationError] it has not touched the validator at all. *)
Lemma validate_frontmatter_state v :
  match _validate_frontmatter yaml_safe_load set_iter dir v with
  | (inr (ValidationError _), v') => v' = v
  | (_, v') => errors v' = errors v
  end.
Proof.
  unfold _validate_frontmatter.
  destruct (negb (startswith "---" (skill_md_text dir))); [reflexivity|].
  destruct (split_max "---" 2 (skill_md_text dir)) as [|p0 [|header [|p2 [|p3 ps]]]];
    try reflexivity.
  destruct (yaml_safe_load header) as [[items|]|e]; try reflexivity.
  destruct (dict_get items "name") as [name|]; [|reflexivity].
  destruct (dict_get items "description") as [[description|]|]; try reflexivity;
    destruct (blank_or_not_str name); try reflexivity.
  destruct (negb (truthy (strip description))); [reflexivity|].
  rewrite (bind_returns _ _ _ _ _ (when_warning _ _ v)).
  rewrite (bind_returns _ _ _ _ _ (when_warning _ _ _)).
  destruct (extra_fields items) as [|k ks]; [reflexivity|].
  destruct (str_keys (set_iter _ (k :: ks))); reflexivity.
Qed.






(** C3: for every document that does not begin with the three-dash
    delimiter, the parsed metadata mapping is empty, and validation reports
    exactly one error, the frontmatter one. *)
Theorem no_delimiter_empty_metadata_one_error :
  path_exists dir "SKILL.md" = true ->
  startswith "---" (skill_md_text dir) = false ->
  DocAnalyzer._parse_frontmatter (skill_md_text dir) = ∅ /\
  validate yaml_safe_load set_iter dir new_validator =
    (inl false,
     {| errors := ["SKILL.md must start with YAML frontmatter (---)"];
        warnings := [] |}).
Proof.
  intros Hexists Hstart. split.
  - unfold DocAnalyzer._parse_frontmatter, DocAnalyzer.frontmatter_match.
    destruct (startswith ("---" +:+ nl) (skill_md_text dir)) eqn:Hfull; [|reflexivity].
    apply startswith_app_l in Hfull. congruence.
  - unfold validate, run_checks, _check_skill_md_exists. rewrite Hexists.
    rewrite (bind_returns (ret tt) _ new_validator tt new_validator eq_refl).
    rewrite (bind_raises _ _ new_validator
               (ValidationError "SKILL.md must start with YAML frontmatter (---)")
               new_validator).
    + reflexivity.
    + unfold _validate_frontmatter. rewrite Hstart. reflexivity.
Qed.

End Validation.

Lemma insertion_order_walks : walks_each_member_once Samples.insertion_order.
Proof. intros A members. reflexivity. Qed.

Lemma reversed_order_walks : walks_each_member_once MoreSamples.reversed_order.
Proof. intros A members. symmetry. apply Permutation_rev. Qed.

Lemma no_delimiter_witness :
  DocAnalyzer._parse_frontmatter (skill_md_text Samples.bare_skill) = ∅ /\
  PackageSkill.validate Samples.sample_yaml Samples.insertion_order Samples.bare_skill
    PackageSkill.new_validator =
    (inl false,
     {| PackageSkill.errors := ["SKILL.md must start with YAML frontmatter (---)"];
        PackageSkill.warnings := [] |}).
Proof.
  apply (no_delimiter_empty_metadata_one_error Samples.sample_yaml
           Samples.insertion_order Samples.bare_skill);
    vm_compute; reflexivity.
Defined.


(* ===================================================================== *)
(** * Companion directories *)
(* ===================================================================== *)

Section Companions.
Import Py PackageSkill Forge.

(** Two strings with different first characters differ. *)
Ltac differ_at_head :=
  let H := fresh in
  intros H; apply (f_equal (take_str 1)) in H; vm_compute in H; discriminate H.

(** C8, as the code has it: for every skill directory with a SKILL.md
    whose assets subdirectory exists and holds README.md alone, [lint]
    gives exactly one suggestion that flags the assets directory, the last
    of its suggestions.  [validate] reads no directory listing: its result
    is the same whatever the companion directories hold, so it has no
    warning for a placeholder-only assets directory. *)
Theorem lint_flags_placeholder_assets (dir : SkillDir) :
  path_exists dir "SKILL.md" = true ->
  path_exists dir "assets" = true ->
  iterdir dir "assets" = ["README.md"] ->
  (exists issues earlier,
     lint dir = Some (issues, earlier ++ [empty_dir_suggestion "assets"]) /\
     empty_dir_suggestion "assets" ∉ earlier) /\
  (forall yaml_safe_load set_iter listing,
     validate yaml_safe_load set_iter (with_listing dir listing) new_validator =
     validate yaml_safe_load set_iter dir new_validator).
Proof.
  intros Hmd Hassets Hlisting. split.
  - unfold lint. rewrite Hmd, Hassets, Hlisting.
    change (bool_decide (["README.md"] = []) || only_readme ["README.md"]) with true.
    cbn [negb andb].
    eexists _, _. split; [reflexivity|].
    destruct (non_imperative (skill_md_text dir)) as [|line found];
      destruct (40 <? count "**" (skill_md_text dir))%nat;
      destruct (path_exists dir "scripts" && bool_decide (iterdir dir "scripts" = []));
      destruct (path_exists dir "references" &&
                bool_decide (iterdir dir "references" = []));
      cbn [app];
      repeat (apply not_elem_of_cons; split; [differ_at_head|]);
      apply not_elem_of_nil.
  - intros yaml_safe_load set_iter listing. reflexivity.
Qed.

Lemma lint_flags_placeholder_witness :
  (exists issues earlier,
     lint Samples.placeholder_skill =
       Some (issues, earlier ++ [empty_dir_suggestion "assets"]) /\
     empty_dir_suggestion "assets" ∉ earlier) /\
  (forall yaml_safe_load set_iter listing,
     validate yaml_safe_load set_iter (with_listing Samples.placeholder_skill listing)
       new_validator =
     validate yaml_safe_load set_iter Samples.placeholder_skill new_validator).
Proof.
  apply (lint_flags_placeholder_assets Samples.placeholder_skill); reflexivity.
Defined.

(** C8 as stated fails for [validate]: the skill is valid, its assets
    directory holds README.md alone, and validation passes with no warning
    at all. *)
Lemma validate_ignores_placeholder_assets :
  path_exists Samples.placeholder_skill "assets" = true /\
  iterdir Samples.placeholder_skill "assets" = ["README.md"] /\
  validate Samples.sample_yaml Samples.insertion_order Samples.placeholder_skill
    new_validator =
    (inl true, {| errors := []; warnings := [] |}).
Proof. repeat split; vm_compute; reflexivity. Qed.

End Companions.

(* ===================================================================== *)
(** * Lines: splitting and joining *)
(* ===================================================================== *)

Section Lines.
Import Py.

Lemma split_char_nonempty sep s : split_char sep s <> [].
Proof.
  destruct s as [|c s]; cbn [split_char]; [discriminate|].
  destruct (Ascii.eqb c sep); [discriminate|].
  destruct (split_char sep s); discriminate.
Qed.

Lemma join_cons_char sep c l ls :
  join sep (String c l :: ls) = String c (join sep (l :: ls)).
Proof. destruct ls; reflexivity. Qed.

(** Joining the lines of a text gives the text back. *)
Lemma join_split s : join nl (split_char nl_char s) = s.
Proof.
  induction s as [|c s IH]; [reflexivity|].
  cbn [split_char]. destruct (Ascii.eqb c nl_char) eqn:Hc.
  - apply Ascii.eqb_eq in Hc. subst c.
    destruct (split_char nl_char s) as [|l ls] eqn:Hs;
      [exact (False_ind _ (split_char_nonempty _ _ Hs))|].
    change (join nl ("" :: l :: ls)) with ("" +:+ nl +:+ join nl (l :: ls)).
    rewrite IH. reflexivity.
  - destruct (split_char nl_char s) as [|l ls] eqn:Hs;
      [exact (False_ind _ (split_char_nonempty _ _ Hs))|].
    rewrite join_cons_char, IH. reflexivity.
Qed.

Lemma split_one_line_app l rest :
  one_line l ->
  split_char nl_char (l +:+ nl +:+ rest) = l :: split_char nl_char rest.
Proof.
  unfold one_line. induction l as [|c l IH]; intros Hl.
  - reflexivity.
  - change (String c l +:+ nl +:+ rest) with (String c (l +:+ nl +:+ rest)).
    cbn [split_char] in *. destruct (Ascii.eqb c nl_char); [discriminate Hl|].
    destruct (split_char nl_char l) as [|l0 ls] eqn:Hs;
      [exact (False_ind _ (split_char_nonempty _ _ Hs))|].
    injection Hl as Hl0 Hls. subst l0 ls.
    rewrite IH by reflexivity. reflexivity.
Qed.

(** Splitting what was joined from lines gives the lines back. *)
Lemma split_join ls :
  ls <> [] -> Forall one_line ls -> split_char nl_char (join nl ls) = ls.
Proof.
  induction ls as [|l ls IH]; intros Hne Hlines; [contradiction|].
  inversion Hlines as [|? ? Hl Hrest]; subst.
  destruct ls as [|l' ls].
  - exact Hl.
  - change (join nl (l :: l' :: ls)) with (l +:+ nl +:+ join nl (l' :: ls)).
    rewrite (split_one_line_app _ _ Hl), IH; [reflexivity|discriminate|exact Hrest].
Qed.

(** Every line [split] gives is a single line. *)
Lemma split_lines_one_line s : Forall one_line (split_char nl_char s).
Proof.
  induction s as [|c s IH]; [repeat constructor|].
  cbn [split_char]. destruct (Ascii.eqb c nl_char) eqn:Hc.
  - constructor; [reflexivity | exact IH].
  - destruct (split_char nl_char s) as [|l ls] eqn:Hs;
      [exact (False_ind _ (split_char_nonempty _ _ Hs))|].
    inversion IH as [|? ? Hl Hrest]; subst.
    constructor; [|exact Hrest].
    unfold one_line in *. cbn [split_char]. rewrite Hc, Hl. reflexivity.
Qed.

End Lines.

(* ===================================================================== *)
(** * More on parsing *)
(* ===================================================================== *)

Section Parsing.
Import Py DocAnalyzer.

Lemma foldl_before_first_heading before :
  Forall (fun line => startswith "## " line = false) before ->
  foldl sections_step sections_init before = sections_init.
Proof.
  induction before as [|line before IH] using rev_ind; intros H; [reflexivity|].
  apply Forall_app in H as [Hbefore Hline].
  inversion Hline as [|? ? Hl _]; subst.
  rewrite foldl_app, IH by exact Hbefore.
  cbn [foldl]. unfold sections_step. rewrite Hl. reflexivity.
Qed.

(** X1: the text before the first second-level heading belongs to no
    section: the sections are those of the lines from that heading on. *)
Theorem text_before_first_heading_is_discarded
    (content : string) (before rest : list string) :
  split_char nl_char content = before ++ rest ->
  Forall (fun line => startswith "## " line = false) before ->
  _parse_sections content = parse_section_lines rest.
Proof.
  intros Hlines Hbefore.
  unfold _parse_sections, parse_section_lines.
  rewrite Hlines, foldl_app, foldl_before_first_heading by exact Hbefore.
  reflexivity.
Qed.

Lemma text_before_first_heading_witness :
  _parse_sections Samples.nested_doc =
  parse_section_lines ["## A"; "x"; "# B"; "y"; "## C"; "z"].
Proof.
  apply (text_before_first_heading_is_discarded Samples.nested_doc ["intro"]).
  - vm_compute. reflexivity.
  - repeat constructor.
Defined.

Lemma heading_seen_more seen more title :
  heading_seen seen title -> heading_seen (seen ++ more) title.
Proof.
  intros [Hne (line & Hin & Hh & Ht)]. split; [exact Hne|].
  exists line. split; [apply elem_of_app; left; exact Hin | split; assumption].
Qed.

Lemma section_open_truthy cur name : section_open cur = Some name -> name <> "".
Proof.
  destruct cur as [[|c t]|]; cbn; intros H; try discriminate H.
  injection H as <-. discriminate.
Qed.

Lemma flush_titles seen st :
  (forall k v, st_sections st !! k = Some v -> heading_seen seen k) ->
  (forall name, section_open (current_section st) = Some name -> heading_seen seen name) ->
  forall k v, flush st !! k = Some v -> heading_seen seen k.
Proof.
  intros Hstored Hopen k v. unfold flush.
  destruct (section_open (current_section st)) as [name|] eqn:Hcur; [|apply Hstored].
  destruct (decide (name = k)) as [->|Hne].
  - intros _. apply Hopen. reflexivity.
  - rewrite lookup_insert_ne by exact Hne. apply Hstored.
Qed.

Lemma foldl_titles lines : forall seen st,
  (forall k v, st_sections st !! k = Some v -> heading_seen seen k) ->
  (forall name, section_open (current_section st) = Some name -> heading_seen seen name) ->
  forall k v, flush (foldl sections_step st lines) !! k = Some v ->
              heading_seen (seen ++ lines) k.
Proof.
  induction lines as [|line lines IH]; intros seen st Hstored Hopen k v Hk.
  - rewrite app_nil_r. exact (flush_titles seen st Hstored Hopen k v Hk).
  - cbn [foldl] in Hk.
    replace (seen ++ line :: lines) with ((seen ++ [line]) ++ lines)
      by (rewrite <- app_assoc; reflexivity).
    apply (IH (seen ++ [line]) (sections_step st line)) with (v := v); [| |exact Hk].
    + intros k' v'. unfold sections_step.
      destruct (startswith "## " line); cbn [st_sections].
      * intros H. apply heading_seen_more.
        exact (flush_titles seen st Hstored Hopen k' v' H).
      * destruct (section_open (current_section st)); cbn [st_sections];
          intros H; apply heading_seen_more; exact (Hstored k' v' H).
    + intros name. unfold sections_step.
      destruct (startswith "## " line) eqn:Hh; cbn [current_section].
      * intros Hname. pose proof (section_open_truthy _ _ Hname) as Hne.
        apply section_open_inv in Hname. injection Hname as Hname.
        split; [exact Hne|]. exists line.
        split; [apply elem_of_app; right; apply list_elem_of_singleton; reflexivity|].
        split; [exact Hh | exact Hname].
      * destruct (section_open (current_section st)) eqn:Hcur; cbn [current_section];
          intros H; apply heading_seen_more; apply Hopen; congruence.
Qed.

(** X2: every section [_parse_sections] returns is named by a second-level
    heading line of the document, and no section has the empty title. *)
Theorem section_titles_come_from_headings (content title body : string) :
  _parse_sections content !! title = Some body ->
  title <> "" /\
  exists line,
    line ∈ split_char nl_char content /\
    startswith "## " line = true /\
    heading_title line = title.
Proof.
  intros H.
  apply (foldl_titles (split_char nl_char content) [] sections_init) with (v := body).
  - intros k v Hk. cbn in Hk. rewrite lookup_empty in Hk. discriminate Hk.
  - intros name Hname. discriminate Hname.
  - exact H.
Qed.

Lemma section_titles_witness :
  heading_title "## C" <> "" /\
  exists line,
    line ∈ split_char nl_char Samples.nested_doc /\
    startswith "## " line = true /\
    heading_title line = heading_title "## C".
Proof.
  apply (section_titles_come_from_headings Samples.nested_doc (heading_title "## C") "z").
  vm_compute. reflexivity.
Defined.

Lemma join_heading_free lines :
  Forall (fun l => startswith "## " l = false /\ one_line l) lines ->
  heading_free (join nl lines).
Proof.
  intros H. unfold heading_free. destruct lines as [|l ls].
  - repeat constructor.
  - rewrite split_join; [|discriminate|].
    + eapply Forall_impl; [exact H|]. intros x [Hx _]. exact Hx.
    + eapply Forall_impl; [exact H|]. intros x [_ Hx]. exact Hx.
Qed.

Lemma flush_heading_free st :
  Forall (fun l => startswith "## " l = false /\ one_line l) (current_content st) ->
  (forall k v, st_sections st !! k = Some v -> heading_free v) ->
  forall k v, flush st !! k = Some v -> heading_free v.
Proof.
  intros Hcontent Hstored k v. unfold flush.
  destruct (section_open (current_section st)) as [name|]; [|apply Hstored].
  destruct (decide (name = k)) as [->|Hne].
  - rewrite lookup_insert_eq. intros [= <-]. apply join_heading_free, Hcontent.
  - rewrite lookup_insert_ne by exact Hne. apply Hstored.
Qed.

Lemma foldl_heading_free lines : forall st,
  Forall one_line lines ->
  Forall (fun l => startswith "## " l = false /\ one_line l) (current_content st) ->
  (forall k v, st_sections st !! k = Some v -> heading_free v) ->
  forall k v, flush (foldl sections_step st lines) !! k = Some v -> heading_free v.
Proof.
  induction lines as [|line lines IH]; intros st Hlines Hcontent Hstored k v Hk.
  - exact (flush_heading_free st Hcontent Hstored k v Hk).
  - inversion Hlines as [|? ? Hline Hrest]; subst. cbn [foldl] in Hk.
    apply (IH (sections_step st line) Hrest) with (k := k); [| |exact Hk].
    + unfold sections_step. destruct (startswith "## " line) eqn:Hh;
        cbn [current_content]; [constructor|].
      destruct (section_open (current_section st)); cbn [current_content];
        [|exact Hcontent].
      apply Forall_app. split; [exact Hcontent|]. repeat constructor; assumption.
    + intros k' v'. unfold sections_step.
      destruct (startswith "## " line); cbn [st_sections].
      * exact (flush_heading_free st Hcontent Hstored k' v').
      * destruct (section_open (current_section st)); cbn [st_sections];
          apply Hstored.
Qed.

(** X3: no section body holds a second-level heading line: whatever a
    document looks like, the text stored for a section has no line that
    starts with '## '. *)
Theorem section_bodies_hold_no_second_level_heading (content title body : string) :
  _parse_sections content !! title = Some body -> heading_free body.
Proof.
  intros H.
  apply (foldl_heading_free (split_char nl_char content) sections_init)
    with (k := title).
  - apply split_lines_one_line.
  - constructor.
  - intros k v Hk. cbn in Hk. rewrite lookup_empty in Hk. discriminate Hk.
  - exact H.
Qed.

Lemma section_bodies_witness :
  heading_free (join nl ["x"; "# B"; "y"]).
Proof.
  apply (section_bodies_hold_no_second_level_heading
           Samples.nested_doc "A" (join nl ["x"; "# B"; "y"])).
  vm_compute. reflexivity.
Defined.

Lemma foldl_frontmatter_keeps lines key : forall fm,
  Forall (fun l => line_key l <> Some key) lines ->
  foldl frontmatter_line fm lines !! key = fm !! key.
Proof.
  induction lines as [|l lines IH]; intros fm Hlines; [reflexivity|].
  inversion Hlines as [|? ? Hl Hrest]; subst.
  cbn [foldl]. rewrite IH by exact Hrest.
  unfold frontmatter_line, line_key in *.
  destruct (partition ":" l) as [[k v]|]; [|reflexivity].
  apply lookup_insert_ne. congruence.
Qed.

(** X4: in the frontmatter the last line that gives a key decides its
    value: a [key: value] line of the header block, with no later line for
    the same trimmed key, is what the mapping holds for that key, both
    trimmed and the value cut at the first colon only. *)
Theorem frontmatter_last_line_wins
    (content block : string) (before : list string) (line : string)
    (after : list string) (key value : string) :
  frontmatter_match content = Some block ->
  split_char nl_char block = before ++ line :: after ->
  partition ":" line = Some (key, value) ->
  Forall (fun l => line_key l <> Some (strip key)) after ->
  _parse_frontmatter content !! strip key = Some (strip value).
Proof.
  intros Hblock Hlines Hline Hafter.
  unfold _parse_frontmatter. rewrite Hblock, Hlines, foldl_app.
  cbn [foldl]. rewrite foldl_frontmatter_keeps by exact Hafter.
  unfold frontmatter_line at 1. rewrite Hline. apply lookup_insert_eq.
Qed.

Lemma frontmatter_last_line_witness :
  _parse_frontmatter MoreSamples.twice_named_doc !! strip "name" = Some (strip " second").
Proof.
  apply (frontmatter_last_line_wins MoreSamples.twice_named_doc
           (join nl ["name: first"; "name: second"; "description: d"])
           ["name: first"] "name: second" ["description: d"]).
  - vm_compute. reflexivity.
  - vm_compute. reflexivity.
  - vm_compute. reflexivity.
  - repeat constructor. vm_compute. discriminate.
Defined.

End Parsing.

(* ===================================================================== *)
(** * More on scoring and the report *)
(* ===================================================================== *)

Section MoreScoring.
Import Py DocAnalyzer.

(** X5: the metadata sub-score is the full 20 exactly when the frontmatter
    has a [name], and a description of more than 50 characters that holds
    no TODO and, in lower case, one of the trigger keywords. *)
Theorem metadata_full_marks_iff (self : analyzer) :
  points (_score_frontmatter self) = 20 <->
  has_key (frontmatter self) "name" = true /\
  exists desc,
    frontmatter self !! "description" = Some desc /\
    (50 < len desc)%nat /\
    str_in "TODO" desc = false /\
    existsb (fun kw => str_in kw (lower desc)) trigger_keywords = true.
Proof.
  unfold _score_frontmatter, points.
  destruct (has_key (frontmatter self) "name") eqn:Hname;
    destruct (frontmatter self !! "description") as [desc|] eqn:Hdesc;
    try (destruct (50 <? len desc)%nat eqn:Hlen;
         destruct (str_in "TODO" desc) eqn:Htodo;
         destruct (existsb (fun kw => str_in kw (lower desc)) trigger_keywords) eqn:Hkw);
    cbn -[existsb str_in len lower]; split;
    try (intros H; lia);
    try (intros (Hn & d & Hd & Hl & Ht & Hk); exfalso;
         first [ discriminate Hn | discriminate Hd
               | injection Hd as <-; apply Nat.ltb_ge in Hlen; lia
               | injection Hd as <-; congruence ]).
  intros _. split; [reflexivity|]. exists desc.
  apply Nat.ltb_lt in Hlen. auto.
Qed.

Lemma structure_fold_balance secs entries : forall acc,
  Forall (fun entry : string * Z => entry.2 = 5) entries ->
  (foldl (structure_step secs) acc entries).1 +
  5 * Z.of_nat (length (foldl (structure_step secs) acc entries).2) =
  acc.1 + 5 * Z.of_nat (length acc.2) + 5 * Z.of_nat (length entries).
Proof.
  induction entries as [|[title pts] entries IH]; intros acc Hpts.
  - cbn [foldl length]. lia.
  - inversion Hpts as [|? ? Hfive Hrest]; subst. cbn [snd] in Hfive. subst pts.
    cbn [foldl]. rewrite IH by exact Hrest.
    destruct acc as [score issues]. unfold structure_step.
    destruct (has_key secs title); cbn [fst snd length]; [lia|].
    rewrite length_app. cbn [length]. lia.
Qed.

(** X6: in the structure sub-score every checklist entry either earns its
    5 points or leaves one issue: points plus 5 for each issue is 25. *)
Theorem structure_points_and_issues_balance (self : analyzer) :
  points (_score_structure self) +
  5 * Z.of_nat (length (issues_of (_score_structure self))) = 25.
Proof.
  pose proof (structure_fold_balance (sections self) recommended_sections (0, [])) as H.
  unfold _score_structure, points, issues_of.
  destruct (foldl (structure_step (sections self)) (0, []) recommended_sections)
    as [score issues].
  cbn [fst snd length] in *. rewrite H; [reflexivity|].
  unfold recommended_sections. repeat constructor.
Qed.

(** X7: [print_report] never raises.  For every analyzer the maxima add up
    to 100, the total lies between 5 and 100, and the percentage printed
    is the total or one less. *)
Theorem print_report_never_raises (self : analyzer) :
  exists r,
    print_report self = Some r /\
    r_total_max r = 100 /\
    5 <= r_total_score r <= 100 /\
    r_total_score r - 1 <= r_overall_pct r <= r_total_score r.
Proof.
  destruct (print_report_total self) as (r & Hr & Hscore & Hmax & Hpct & _).
  exists r. split; [exact Hr|]. split; [exact Hmax|].
  destruct (total_score_range self) as [_ Htotal]. rewrite <- Hscore in Htotal.
  split; [exact Htotal|]. rewrite Hpct. apply printed_percent_bounds.
Qed.

Lemma classify_printed_percent total :
  classify (printed_percent total) = classify total.
Proof.
  unfold classify, printed_percent, rounds_below.
  destruct (total =? 29) eqn:H29; [apply Z.eqb_eq in H29; subst; reflexivity|].
  destruct (total =? 57) eqn:H57; [apply Z.eqb_eq in H57; subst; reflexivity|].
  destruct (total =? 58) eqn:H58; [apply Z.eqb_eq in H58; subst; reflexivity|].
  reflexivity.
Qed.

(** X8: the band printed under the overall score is the band of the exact
    total out of 100: the percentage that binary64 truncation lowers by one
    never crosses the thresholds 80 and 60. *)
Theorem band_follows_exact_total (self : analyzer) :
  exists r,
    print_report self = Some r /\
    r_band r = classify (r_total_score r).
Proof.
  destruct (print_report_total self) as (r & Hr & _ & _ & Hpct & Hband).
  exists r. split; [exact Hr|].
  rewrite Hband, Hpct. apply classify_printed_percent.
Qed.

End MoreScoring.

(* ===================================================================== *)
(** * Gaps, suggestions and code fences *)
(* ===================================================================== *)

Section Advice.
Import Py DocAnalyzer.

(** X9: a troubleshooting gap never comes alone: whenever
    [_identify_gaps] reports that there is no troubleshooting section,
    [_generate_suggestions] proposes to add one. *)
Theorem troubleshooting_gap_has_suggestion (self : analyzer) :
  "No troubleshooting section" ∈ _identify_gaps self ->
  "Add Troubleshooting section with common issues and solutions"
    ∈ _generate_suggestions self.
Proof.
  intros Hgap.
  assert (has_key (sections self) "Troubleshooting" = false) as Hmissing.
  { unfold _identify_gaps in Hgap.
    destruct (has_key (sections self) "Troubleshooting"); [|reflexivity].
    exfalso. cbn [negb andb] in Hgap.
    destruct (negb (str_in "trigger" (lower (content self))) &&
              negb (str_in "activated" (lower (content self))));
      destruct (bool_decide (scripts self <> []) &&
                negb (str_in "scripts/" (content self)));
      destruct (path_exists (skill_path self) "references" &&
                bool_decide (glob_suffix (skill_path self) "references" ".md" <> []));
      try destruct (negb (str_in "references/" (content self)));
      cbn [app] in Hgap;
      repeat (apply elem_of_cons in Hgap as [Hgap|Hgap]; [discriminate Hgap|]);
      exact (proj1 (elem_of_nil _) Hgap). }
  unfold _generate_suggestions. rewrite Hmissing. cbn [negb].
  apply elem_of_app. left.
  destruct (has_key (sections self) "Best Practices"); cbn [negb];
    repeat (apply elem_of_app; first [right; apply list_elem_of_singleton; reflexivity | left]).
Qed.

Lemma troubleshooting_gap_witness :
  "Add Troubleshooting section with common issues and solutions"
    ∈ _generate_suggestions Samples.full_analyzer.
Proof.
  apply (troubleshooting_gap_has_suggestion Samples.full_analyzer).
  vm_compute. repeat constructor.
Defined.

Lemma startswith_own_prefix p q : startswith p (p +:+ q) = true.
Proof.
  induction p as [|c p IH]; [reflexivity|].
  change (String c p +:+ q) with (String c (p +:+ q)).
  cbn [startswith]. rewrite Ascii.eqb_refl. exact IH.
Qed.

Lemma script_suggestions_count text (names : list string) :
  (length (filter (fun name => Is_true (str_in name text)) names) +
   length (filter (fun s => Is_true (startswith "Document script '" s))
             (omap (fun name =>
                      if str_in name text then None
                      else Some ("Document script '" +:+ name +:+
                                 "' with usage examples"))
                   names)))%nat = length names.
Proof.
  induction names as [|name names IH]; [reflexivity|].
  cbn [omap list_omap]. destruct (str_in name text) eqn:Hin.
  - rewrite filter_cons_True by (rewrite Hin; exact I). cbn [length]. lia.
  - rewrite filter_cons_False by (rewrite Hin; exact id).
    rewrite filter_cons_True by (rewrite startswith_own_prefix; exact I).
    cbn [length]. lia.
Qed.

(** X10: every bundled script is either counted as documented by the
    example scorer or named in a suggestion of its own: the two numbers add
    up to the number of scripts. *)
Theorem scripts_documented_or_suggested (self : analyzer) :
  (scripts_documented self +
   length (filter (fun s => Is_true (startswith "Document script '" s))
                  (_generate_suggestions self)))%nat = length (scripts self).
Proof.
  unfold _generate_suggestions, scripts_documented.
  rewrite filter_app, length_app.
  rewrite <- (script_suggestions_count (content self) (scripts self)).
  assert (forall base : list string,
            Forall (fun s => startswith "Document script '" s = false) base ->
            filter (fun s => Is_true (startswith "Document script '" s)) base = [])
    as Hnone.
  { intros base Hbase. induction Hbase as [|s base Hs _ IH]; [reflexivity|].
    rewrite filter_cons_False by (rewrite Hs; exact id). exact IH. }
  rewrite Hnone; [cbn [length]; lia|].
  destruct (frontmatter self !! "description") as [desc|];
    try destruct (len desc <? 100)%nat;
    destruct (length (code_blocks (content self)) <? 2)%nat;
    destruct (has_key (sections self) "Troubleshooting");
    destruct (has_key (sections self) "Best Practices");
    cbn [negb app]; repeat constructor.
Qed.

End Advice.

(* ===================================================================== *)
(** * Counting code fences *)
(* ===================================================================== *)

Section Fences.
Import Py DocAnalyzer.

Lemma drop_str_empty n : drop_str n "" = "".
Proof. destruct n; reflexivity. Qed.

(** Skipping [k] characters while counting is counting in what is left
    after them. *)
Lemma count_from_skip sub s : forall k,
  count_from sub s k = count_from sub (drop_str k s) O.
Proof.
  induction s as [|c s IH]; intros k.
  - rewrite drop_str_empty. reflexivity.
  - destruct k as [|k]; [reflexivity|]. cbn [count_from drop_str]. apply IH.
Qed.

Lemma count_fence_at_head s :
  startswith "```" s = true ->
  count_from "```" s O = S (count_from "```" (drop_str 3 s) O).
Proof.
  intros Hopen. destruct s as [|c s]; [discriminate Hopen|].
  cbn [count_from]. rewrite Hopen.
  change (len "```" - 1)%nat with 2%nat.
  rewrite count_from_skip. reflexivity.
Qed.

(** [partition] finds the first of the occurrences [count] counts. *)
Lemma count_fence_partition s :
  match partition "```" s with
  | Some (_, after) => count_from "```" s O = S (count_from "```" after O)
  | None => count_from "```" s O = O
  end.
Proof.
  induction s as [|c s IH]; [reflexivity|].
  cbn [partition]. destruct (startswith "```" (String c s)) eqn:Hopen.
  - exact (count_fence_at_head _ Hopen).
  - cbn [count_from]. rewrite Hopen.
    destruct (partition "```" s) as [[before after]|]; exact IH.
Qed.

Lemma partition_none_drop sub s k :
  partition sub s = None -> partition sub (drop_str k s) = None.
Proof.
  revert s. induction k as [|k IH]; intros s H; [exact H|].
  destruct s as [|c s]; [exact H|].
  cbn [drop_str]. apply IH.
  cbn [partition] in H. destruct (startswith sub (String c s)); [discriminate H|].
  destruct (partition sub s) as [[b a]|]; [discriminate H | reflexivity].
Qed.

Lemma drop_str_drop_str n m s : drop_str n (drop_str m s) = drop_str (m + n) s.
Proof.
  revert s. induction m as [|m IH]; intros s; [reflexivity|].
  destruct s as [|c s]; [rewrite drop_str_empty; reflexivity|].
  cbn [drop_str Nat.add]. apply IH.
Qed.

(** Past an opening fence that is never closed the scan finds nothing. *)
Lemma no_fence_after_unclosed fuel : forall s,
  partition "```" (drop_str 3 s) = None ->
  findall_fuel fence_match fuel s = [].
Proof.
  induction fuel as [|fuel IH]; intros s Hnone; [reflexivity|].
  cbn [findall_fuel]. unfold fence_match at 1. rewrite Hnone.
  destruct (startswith "```" s);
    (destruct s as [|c s]; [reflexivity|]; apply IH;
     change (String c s) with (String c s) in Hnone;
     replace (drop_str 3 s) with (drop_str 1 (drop_str 3 (String c s)))
       by (rewrite drop_str_drop_str; reflexivity);
     apply partition_none_drop; exact Hnone).
Qed.

Lemma code_blocks_count_fuel fuel : forall s,
  (len s < fuel)%nat ->
  length (findall_fuel fence_match fuel s) = (count_from "```" s O / 2)%nat.
Proof.
  induction fuel as [|fuel IH]; intros s Hfuel; [lia|].
  cbn [findall_fuel].
  destruct (fence_match s) as [[m rest]|] eqn:Hmatch.
  - pose proof (fence_match_shrinks _ _ _ Hmatch) as Hshrink.
    unfold fence_match in Hmatch.
    destruct (startswith "```" s) eqn:Hopen; [|discriminate Hmatch].
    pose proof (count_fence_partition (drop_str 3 s)) as Hclose.
    destruct (partition "```" (drop_str 3 s)) as [[body after]|]; [|discriminate Hmatch].
    injection Hmatch as _ <-.
    rewrite (count_fence_at_head _ Hopen), Hclose.
    cbn [length]. rewrite IH by lia.
    change (S (S (count_from "```" after O))) with (2 + count_from "```" after O)%nat.
    rewrite (Nat.div_add_l 1 2) by discriminate. lia.
  - unfold fence_match in Hmatch.
    destruct (startswith "```" s) eqn:Hopen.
    + pose proof (count_fence_partition (drop_str 3 s)) as Hclose.
      destruct (partition "```" (drop_str 3 s)) as [[body after]|] eqn:Hpart;
        [discriminate Hmatch|].
      rewrite (count_fence_at_head _ Hopen), Hclose.
      destruct s as [|c s]; [reflexivity|].
      rewrite no_fence_after_unclosed; [reflexivity|].
      replace (drop_str 3 s) with (drop_str 1 (drop_str 3 (String c s)))
        by (rewrite drop_str_drop_str; reflexivity).
      apply partition_none_drop. exact Hpart.
    + destruct s as [|c s]; [reflexivity|].
      cbn [count_from]. rewrite Hopen. apply IH.
      cbn [len String.length] in Hfuel. unfold len. lia.
Qed.

(** X11: the example scorer counts one code block for every two fences:
    the number of matches of the fence pattern is half the number of
    non-overlapping "```" in the text, rounded down, so an opening fence
    that is never closed counts for nothing; the sub-score is 10 points a
    block, up to 30. *)
Theorem example_score_counts_fence_pairs (self : analyzer) :
  length (code_blocks (content self)) = (count "```" (content self) / 2)%nat /\
  points (_score_examples self) =
    10 * Z.min 3 (Z.of_nat (count "```" (content self) / 2)).
Proof.
  assert (length (code_blocks (content self)) = (count "```" (content self) / 2)%nat)
    as Hblocks.
  { unfold code_blocks, findall. apply code_blocks_count_fuel. lia. }
  split; [exact Hblocks|].
  unfold _score_examples, points. rewrite Hblocks.
  destruct (count "```" (content self) / 2)%nat as [|[|[|n]]]; cbn [fst]; lia.
Qed.

End Fences.

(* ===================================================================== *)
(** * More on validation *)
(* ===================================================================== *)

Section MoreValidation.
Import Py PackageSkill.

Variable yaml_safe_load : string -> yaml_result.
Variable set_iter : forall A : Type, list A -> list A.
Variable dir : SkillDir.

Hypothesis set_iter_walks : walks_each_member_once set_iter.

Lemma bind_inl_inv {A B : Type} (m : M A) (k : A -> M B) v b v' :
  bind m k v = (inl b, v') ->
  exists a v1, m v = (inl a, v1) /\ k a v1 = (inl b, v').
Proof.
  unfold bind. destruct (m v) as [[a|e] v1]; [|discriminate].
  intros H. exists a, v1. split; [reflexivity | exact H].
Qed.

(** Where the checks run through, the answer is whether errors were
    recorded, and the state is what the three later checks leave. *)
Lemma run_checks_returns v b v' :
  run_checks yaml_safe_load set_iter dir v = (inl b, v') ->
  b = bool_decide (errors v' = []) /\
  path_exists dir "SKILL.md" = true /\
  exists v1,
    _validate_frontmatter yaml_safe_load set_iter dir v = (inl tt, v1) /\
    errors v' = errors v1 ++ deny_list_errors dir /\
    warnings v' =
      warnings v1 ++
      later_warnings dir (set_iter _ (referenced_files (skill_md_text dir))).
Proof.
  unfold run_checks. intros H.
  apply bind_inl_inv in H as ([] & v0 & Hmd & H).
  unfold _check_skill_md_exists in Hmd.
  destruct (path_exists dir "SKILL.md"); [|discriminate Hmd].
  injection Hmd as <-.
  apply bind_inl_inv in H as ([] & v1 & Hfm & H).
  rewrite (bind_returns _ _ _ _ _ (validate_structure_returns dir v1)) in H.
  rewrite (bind_returns _ _ _ _ _ (check_file_references_returns set_iter dir _)) in H.
  rewrite (bind_returns _ _ _ _ _ (check_token_budget_returns dir _)) in H.
  injection H as <- <-. cbn [errors warnings].
  split; [reflexivity|]. split; [reflexivity|].
  exists v1. split; [exact Hfm|]. split; [reflexivity|].
  unfold later_warnings. rewrite <- !app_assoc. reflexivity.
Qed.

(** The answer of [validate] is whether errors were recorded. *)
Lemma answer_tells_errors v b v' :
  validate yaml_safe_load set_iter dir v = (inl b, v') ->
  b = bool_decide (errors v' = []).
Proof.
  unfold validate.
  destruct (run_checks yaml_safe_load set_iter dir v) as [[b0|[msg|msg]] v1] eqn:Hrun.
  - intros [= <- <-]. exact (proj1 (run_checks_returns _ _ _ Hrun)).
  - intros [= <- <-]. cbn [errors]. symmetry. apply bool_decide_eq_false.
    intros Hnil. destruct (errors v1); discriminate Hnil.
  - discriminate.
Qed.

(** X12: whenever [validate] returns, it returns [True] exactly when no
    error is recorded, whatever the warnings are. *)
Theorem validate_answer_is_no_errors (v : validator) (b : bool) (v' : validator) :
  validate yaml_safe_load set_iter dir v = (inl b, v') ->
  b = bool_decide (errors v' = []).
Proof.
  unfold validate.
  destruct (run_checks yaml_safe_load set_iter dir v) as [[b0|[msg|msg]] v1] eqn:Hrun.
  - intros [= <- <-]. exact (proj1 (run_checks_returns _ _ _ Hrun)).
  - intros [= <- <-]. cbn [errors]. symmetry. apply bool_decide_eq_false.
    intros Hnil. destruct (errors v1); discriminate Hnil.
  - discriminate.
Qed.

(** What [_validate_frontmatter] has checked when it returns. *)
Lemma validate_frontmatter_checked v v' :
  _validate_frontmatter yaml_safe_load set_iter dir v = (inl tt, v') ->
  startswith "---" (skill_md_text dir) = true /\
  exists p0 header p2 items name description,
    split_max "---" 2 (skill_md_text dir) = [p0; header; p2] /\
    yaml_safe_load header = YamlValue (YDict items) /\
    dict_get items "name" = Some (PStr name) /\ strip name <> "" /\
    dict_get items "description" = Some (PStr description) /\
    strip description <> "".
Proof.
  unfold _validate_frontmatter.
  destruct (startswith "---" (skill_md_text dir)); [|discriminate].
  cbn [negb].
  destruct (split_max "---" 2 (skill_md_text dir)) as [|p0 [|header [|p2 [|p3 ps]]]];
    try discriminate.
  destruct (yaml_safe_load header) as [[items|]|e] eqn:Hload; try discriminate.
  destruct (dict_get items "name") as [name|] eqn:Hname; [|discriminate].
  destruct (dict_get items "description") as [description|] eqn:Hdesc; [|discriminate].
  destruct name as [name|ty]; cbn [blank_or_not_str]; [|discriminate].
  destruct (strip name) eqn:Hn; cbn [truthy negb]; [discriminate|].
  destruct description as [description|ty]; [|discriminate].
  destruct (strip description) eqn:Hd; cbn [truthy negb]; [discriminate|].
  intros _. split; [reflexivity|].
  exists p0, header, p2, items, name, description.
  rewrite Hn, Hd. repeat split; try reflexivity; try assumption; discriminate.
Qed.

Lemma no_deny_list_errors :
  deny_list_errors dir = [] ->
  forall f, f ∈ extraneous_files -> path_exists dir f = false.
Proof.
  unfold deny_list_errors. generalize extraneous_files.
  intros files. induction files as [|g files IH]; intros Hnil f Hf.
  - apply elem_of_nil in Hf. contradiction.
  - destruct (path_exists dir g) eqn:Hg.
    + rewrite filter_cons_True in Hnil by (rewrite Hg; exact I). discriminate Hnil.
    + rewrite filter_cons_False in Hnil by (rewrite Hg; exact id).
      apply elem_of_cons in Hf as [->|Hf]; [exact Hg | exact (IH Hnil f Hf)].
Qed.

(** A run of [validate] that answers [True] has passed every hard rule. *)
Lemma valid_hard_rules v :
  validate yaml_safe_load set_iter dir new_validator = (inl true, v) ->
  path_exists dir "SKILL.md" = true /\
  startswith "---" (skill_md_text dir) = true /\
  (exists p0 header p2 items name description,
     split_max "---" 2 (skill_md_text dir) = [p0; header; p2] /\
     yaml_safe_load header = YamlValue (YDict items) /\
     dict_get items "name" = Some (PStr name) /\ strip name <> "" /\
     dict_get items "description" = Some (PStr description) /\
     strip description <> "") /\
  (forall f, f ∈ extraneous_files -> path_exists dir f = false) /\
  errors v = [].
Proof.
  unfold validate.
  destruct (run_checks yaml_safe_load set_iter dir new_validator)
    as [[b0|[msg|msg]] v1] eqn:Hrun;
    try discriminate.
  intros [= -> ->].
  destruct (run_checks_returns _ _ _ Hrun) as (Hb & Hmd & v1 & Hfm & Herr & _).
  symmetry in Hb. apply bool_decide_eq_true in Hb.
  destruct (validate_frontmatter_checked _ _ Hfm) as [Hstart Hheader].
  split; [exact Hmd|]. split; [exact Hstart|]. split; [exact Hheader|].
  split; [|exact Hb].
  apply no_deny_list_errors. rewrite Hb in Herr.
  symmetry in Herr. apply app_eq_nil in Herr. exact (proj2 Herr).
Qed.

(** X13: a skill that [validate] accepts meets every hard rule: SKILL.md
    exists and starts with the delimiter, its header splits off and loads
    as a mapping whose [name] and [description] are strings that are not
    blank, and none of the deny-listed files is present. *)
Theorem accepted_skill_meets_hard_rules (v : validator) :
  validate yaml_safe_load set_iter dir new_validator = (inl true, v) ->
  path_exists dir "SKILL.md" = true /\
  startswith "---" (skill_md_text dir) = true /\
  (exists p0 header p2 items name description,
     split_max "---" 2 (skill_md_text dir) = [p0; header; p2] /\
     yaml_safe_load header = YamlValue (YDict items) /\
     dict_get items "name" = Some (PStr name) /\ strip name <> "" /\
     dict_get items "description" = Some (PStr description) /\
     strip description <> "") /\
  (forall f, f ∈ extraneous_files -> path_exists dir f = false) /\
  errors v = [].
Proof. exact (valid_hard_rules v). Qed.

(** X14: [main] writes an archive exactly for a path that exists, is a
    directory and on which [validate] returns with no error recorded,
    whatever warnings it has recorded: warnings do not stand in the way.
    The archive is then the one [package_skill] builds, and the skill has
    passed the hard rules: SKILL.md is there and starts with the delimiter,
    and no deny-listed file is present. *)
Theorem main_packages_exactly_the_skills_without_errors
    (skill_exists skill_is_dir : bool) (skill_name : string)
    (tree : fs_entries) (v : validator) (output : string * list (list string)) :
  (main yaml_safe_load set_iter skill_exists skill_is_dir skill_name dir tree =
     Packaged v output <->
   skill_exists = true /\ skill_is_dir = true /\
   (exists answer,
      validate yaml_safe_load set_iter dir new_validator = (inl answer, v)) /\
   errors v = [] /\
   output = package_skill skill_name tree) /\
  (main yaml_safe_load set_iter skill_exists skill_is_dir skill_name dir tree =
     Packaged v output ->
   path_exists dir "SKILL.md" = true /\
   startswith "---" (skill_md_text dir) = true /\
   (forall f, f ∈ extraneous_files -> path_exists dir f = false)).
Proof.
  assert (main yaml_safe_load set_iter skill_exists skill_is_dir skill_name dir tree =
            Packaged v output ->
          skill_exists = true /\ skill_is_dir = true /\
          validate yaml_safe_load set_iter dir new_validator = (inl true, v) /\
          output = package_skill skill_name tree) as Houtcome.
  { unfold main.
    destruct skill_exists; [|discriminate]. destruct skill_is_dir; [|discriminate].
    cbn [negb].
    destruct (validate yaml_safe_load set_iter dir new_validator) as [[[]|e] v0];
      try discriminate.
    cbn [negb]. intros [= <- <-]. repeat split. }
  split; [split|].
  - intros Hmain. destruct (Houtcome Hmain) as (He & Hd & Hvalid & Hout).
    split; [exact He|]. split; [exact Hd|].
    split; [exists true; exact Hvalid|].
    split; [|exact Hout].
    destruct (valid_hard_rules _ Hvalid) as (_ & _ & _ & _ & Herr). exact Herr.
  - intros (-> & -> & [answer Hvalid] & Herr & ->).
    unfold main. cbn [negb]. rewrite Hvalid.
    rewrite (answer_tells_errors _ _ _ Hvalid).
    rewrite Herr. reflexivity.
  - intros Hmain. destruct (Houtcome Hmain) as (_ & _ & Hvalid & _).
    destruct (valid_hard_rules _ Hvalid) as (Hmd & Hstart & _ & Hdeny & _).
    split; [exact Hmd|]. split; [exact Hstart | exact Hdeny].
Qed.

(** X15: an extra key of the header that is no string makes [validate]
    leave with a [TypeError] instead of returning: the hard rules have
    passed, and joining the extra fields into the warning fails. *)
Theorem non_string_extra_key_escapes_validate
    (p0 header p2 : string) (items : list (py_obj * py_obj)) (name description : string) :
  path_exists dir "SKILL.md" = true ->
  startswith "---" (skill_md_text dir) = true ->
  split_max "---" 2 (skill_md_text dir) = [p0; header; p2] ->
  yaml_safe_load header = YamlValue (YDict items) ->
  dict_get items "name" = Some (PStr name) -> strip name <> "" ->
  dict_get items "description" = Some (PStr description) -> strip description <> "" ->
  str_keys (extra_fields items) = None ->
  exists msg v,
    validate yaml_safe_load set_iter dir new_validator = (inr (TypeError msg), v).
Proof.
  intros Hmd Hstart Hsplit Hload Hname Hn Hdesc Hd Hkeys.
  assert (exists msg v,
            _validate_frontmatter yaml_safe_load set_iter dir new_validator =
              (inr (TypeError msg), v)) as (msg & v & Hfm).
  { unfold _validate_frontmatter.
    rewrite Hstart, Hsplit, Hload, Hname, Hdesc. cbn [negb].
    unfold blank_or_not_str.
    destruct (strip name); [contradiction|]. cbn [truthy negb].
    destruct (strip description); [contradiction|]. cbn [truthy negb].
    rewrite (bind_returns _ _ _ _ _ (when_warning _ _ new_validator)).
    rewrite (bind_returns _ _ _ _ _ (when_warning _ _ _)).
    pose proof (str_keys_walk_none set_iter set_iter_walks _ Hkeys) as Hwalk.
    revert Hkeys Hwalk.
    destruct (extra_fields items) as [|k ks]; intros Hkeys Hwalk;
      [discriminate Hkeys|].
    cbv zeta. rewrite Hwalk. do 2 eexists. reflexivity. }
  exists msg, v.
  unfold validate, run_checks, _check_skill_md_exists. rewrite Hmd.
  rewrite (bind_returns (ret tt) _ new_validator tt new_validator eq_refl).
  rewrite (bind_raises _ _ _ _ _ Hfm). reflexivity.
Qed.

End MoreValidation.

Lemma validate_answer_witness :
  false =
  bool_decide
    (PackageSkill.errors
       {| PackageSkill.errors := [PackageSkill.extraneous_error "CHANGELOG.md"];
          PackageSkill.warnings := [PackageSkill.readme_warning] |} = []).
Proof.
  apply (validate_answer_is_no_errors Samples.sample_yaml Samples.insertion_order
           Samples.cluttered_skill PackageSkill.new_validator).
  vm_compute. reflexivity.
Defined.

Lemma accepted_skill_witness :
  path_exists Samples.placeholder_skill "SKILL.md" = true /\
  Py.startswith "---" (skill_md_text Samples.placeholder_skill) = true /\
  (exists p0 header p2 items name description,
     PackageSkill.split_max "---" 2 (skill_md_text Samples.placeholder_skill) =
       [p0; header; p2] /\
     Samples.sample_yaml header = PackageSkill.YamlValue (PackageSkill.YDict items) /\
     PackageSkill.dict_get items "name" = Some (PackageSkill.PStr name) /\
     Py.strip name <> "" /\
     PackageSkill.dict_get items "description" = Some (PackageSkill.PStr description) /\
     Py.strip description <> "") /\
  (forall f, f ∈ PackageSkill.extraneous_files ->
             path_exists Samples.placeholder_skill f = false) /\
  PackageSkill.errors {| PackageSkill.errors := []; PackageSkill.warnings := [] |} = [].
Proof.
  apply (accepted_skill_meets_hard_rules Samples.sample_yaml Samples.insertion_order
           Samples.placeholder_skill).
  vm_compute. reflexivity.
Defined.

(** A skill with a README beside SKILL.md: the warning is recorded, and
    the archive is written all the same. *)
Lemma main_packages_witness :
  PackageSkill.main Samples.sample_yaml Samples.insertion_order true true "demo"
    MoreSamples.readme_skill MoreSamples.sample_tree =
  PackageSkill.Packaged
    {| PackageSkill.errors := [];
       PackageSkill.warnings := [PackageSkill.readme_warning] |}
    (PackageSkill.package_skill "demo" MoreSamples.sample_tree).
Proof.
  apply (proj2 (proj1
           (main_packages_exactly_the_skills_without_errors Samples.sample_yaml
              Samples.insertion_order MoreSamples.readme_skill true true "demo"
              MoreSamples.sample_tree _ _))).
  split; [reflexivity|]. split; [reflexivity|].
  split; [exists true; vm_compute; reflexivity|].
  split; reflexivity.
Defined.

Lemma non_string_extra_key_witness :
  exists msg v,
    PackageSkill.validate MoreSamples.numeric_key_yaml MoreSamples.reversed_order
      Samples.full_skill PackageSkill.new_validator =
      (inr (PackageSkill.TypeError msg), v).
Proof.
  apply (non_string_extra_key_escapes_validate MoreSamples.numeric_key_yaml
           MoreSamples.reversed_order Samples.full_skill reversed_order_walks
           "" (Py.drop_str 3 (Py.take_str 129 Samples.full_doc))
           (Py.drop_str 132 Samples.full_doc)
           [(PackageSkill.PStr "name", PackageSkill.PStr "demo");
            (PackageSkill.PStr "description", PackageSkill.PStr Samples.long_description);
            (PackageSkill.PObj "int", PackageSkill.PStr "x")]
           "demo" Samples.long_description);
    try (vm_compute; reflexivity); vm_compute; discriminate.
Defined.

(* ===================================================================== *)
(** * Referenced files *)
(* ===================================================================== *)

Section References.
Import Py PackageSkill.

(** The loop body of [referenced_files]. *)
Lemma referenced_files_fold (matches : list (string * string)) : forall refs,
  (NoDup refs ->
   NoDup (foldl (fun refs (m : string * string) =>
                   if startswith "http://" m.2 || startswith "https://" m.2 ||
                      startswith "#" m.2
                   then refs else set_add m.2 refs) refs matches)) /\
  (forall fp,
     fp ∈ foldl (fun refs (m : string * string) =>
                   if startswith "http://" m.2 || startswith "https://" m.2 ||
                      startswith "#" m.2
                   then refs else set_add m.2 refs) refs matches ->
     fp ∈ refs \/
     (exists m, m ∈ matches /\ m.2 = fp /\
                startswith "http://" fp = false /\
                startswith "https://" fp = false /\
                startswith "#" fp = false)).
Proof.
  induction matches as [|m matches IH]; intros refs.
  - split; [auto|]. intros fp H. left. exact H.
  - cbn [foldl].
    destruct (startswith "http://" m.2 || startswith "https://" m.2 ||
              startswith "#" m.2) eqn:Hskip.
    + destruct (IH refs) as [Hdup Hin]. split; [exact Hdup|].
      intros fp H. apply Hin in H as [H|(m' & Hm' & H)]; [left; exact H|].
      right. exists m'. split; [apply elem_of_cons; right; exact Hm' | exact H].
    + destruct (IH (set_add m.2 refs)) as [Hdup Hin].
      apply orb_false_iff in Hskip as [Hskip Hanchor].
      apply orb_false_iff in Hskip as [Hhttp Hhttps].
      split.
      * intros Hrefs. apply Hdup. unfold set_add.
        destruct (bool_decide (m.2 ∈ refs)) eqn:Hseen; [exact Hrefs|].
        apply bool_decide_eq_false in Hseen.
        apply NoDup_app. split; [exact Hrefs|]. split.
        -- intros x Hx Hx'. apply list_elem_of_singleton in Hx'. subst x. contradiction.
        -- apply NoDup_singleton.
      * intros fp H. apply Hin in H as [H|(m' & Hm' & H)].
        -- unfold set_add in H.
           destruct (bool_decide (m.2 ∈ refs)); [left; exact H|].
           apply elem_of_app in H as [H|H]; [left; exact H|].
           apply list_elem_of_singleton in H. subst fp.
           right. exists m. split; [apply elem_of_cons; left; reflexivity|].
           repeat split; assumption.
        -- right. exists m'.
           split; [apply elem_of_cons; right; exact Hm' | exact H].
Qed.

(** X16: the referenced files are collected without repetition, and no
    URL and no in-document anchor is among them. *)
Theorem referenced_files_distinct_and_local (content : string) :
  NoDup (referenced_files content) /\
  forall fp, fp ∈ referenced_files content ->
    startswith "http://" fp = false /\
    startswith "https://" fp = false /\
    startswith "#" fp = false.
Proof.
  unfold referenced_files.
  destruct (referenced_files_fold
              (findall link_match content ++ findall code_span_match content) [])
    as [Hdup Hin].
  split; [apply Hdup; constructor|].
  intros fp H. apply Hin in H as [H|(m & _ & _ & H)]; [|exact H].
  apply elem_of_nil in H. contradiction.
Qed.

(** What a scan returns was matched somewhere. *)
Lemma findall_fuel_matched {A : Type} (try : string -> option (A * string)) fuel :
  forall s m, m ∈ findall_fuel try fuel s -> exists t rest, try t = Some (m, rest).
Proof.
  induction fuel as [|fuel IH]; intros s m H.
  - apply elem_of_nil in H. contradiction.
  - cbn [findall_fuel] in H. destruct (try s) as [[m0 rest]|] eqn:Htry.
    + apply elem_of_cons in H as [->|H]; [exists s, rest; exact Htry|].
      exact (IH _ _ H).
    + destruct s as [|c s]; [apply elem_of_nil in H; contradiction|].
      exact (IH _ _ H).
Qed.

Lemma code_span_match_extension s name ext rest :
  code_span_match s = Some ((name, ext), rest) ->
  ext ∈ ref_extensions /\ endswith ("." +:+ ext) name = true.
Proof.
  unfold code_span_match.
  destruct s as [|c s1]; [discriminate|].
  destruct (Ascii.eqb c "`") eqn:Hc;
    [apply Ascii.eqb_eq in Hc; subst c
    |apply Ascii.eqb_neq in Hc;
     destruct c as [[] [] [] [] [] [] [] []]; try discriminate; contradiction].
  destruct (span_until "`" s1) as [name' r1].
  destruct (startswith "`" r1); [|discriminate].
  destruct (List.find _ ref_extensions) as [ext'|] eqn:Hfind; [|discriminate].
  intros [= <- <- <-].
  apply find_some in Hfind as [Hin Htest].
  apply andb_true_iff in Htest as [Hends _].
  split; [apply list_elem_of_In; exact Hin | exact Hends].
Qed.

(** X17: of a file name in backticks only the extension is recorded: every
    referenced file is the target of a markdown link in the text, or one of
    "py", "sh", "md" and "txt". *)
Theorem backticked_names_are_recorded_by_extension (content fp : string) :
  fp ∈ referenced_files content ->
  (exists text, (text, fp) ∈ findall link_match content) \/ fp ∈ ref_extensions.
Proof.
  unfold referenced_files. intros H.
  destruct (referenced_files_fold
              (findall link_match content ++ findall code_span_match content) [])
    as [_ Hin].
  apply Hin in H as [H|([text target] & Hm & Hfp & _)];
    [apply elem_of_nil in H; contradiction|].
  cbn [snd] in Hfp. subst target.
  apply elem_of_app in Hm as [Hm|Hm]; [left; exists text; exact Hm|].
  right. apply findall_fuel_matched in Hm as (t & rest & Hmatch).
  exact (proj1 (code_span_match_extension _ _ _ _ Hmatch)).
Qed.

Lemma backticked_names_witness :
  (exists text, (text, "py") ∈ findall link_match MoreSamples.linked_doc) \/
  "py" ∈ ref_extensions.
Proof.
  apply (backticked_names_are_recorded_by_extension MoreSamples.linked_doc "py").
  vm_compute. repeat constructor.
Defined.

End References.

(* ===================================================================== *)
(** * The archive *)
(* ===================================================================== *)

Section Archive.
Import Py PackageSkill.

Lemma tree_file_nonempty entries rel : tree_file entries rel -> rel <> [].
Proof. induction 1; [discriminate | discriminate | assumption]. Qed.

Lemma packable_cons d rel :
  rel <> [] -> packable (d :: rel) = keep_dir d && packable rel.
Proof. destruct rel; [contradiction | reflexivity]. Qed.

Lemma files_here_sound entries : forall root p,
  p ∈ files_here root entries ->
  exists file, p = root ++ [file] /\ tree_file entries [file] /\ keep_file file = true.
Proof.
  induction entries as [|name node rest IH]; intros root p Hp.
  - apply elem_of_nil in Hp. contradiction.
  - assert (p ∈ files_here root rest ->
            exists file, p = root ++ [file] /\
                         tree_file (FsCons name node rest) [file] /\
                         keep_file file = true) as Hrest.
    { intros H. apply IH in H as (file & -> & Htree & Hkeep).
      exists file. split; [reflexivity|]. split; [|exact Hkeep].
      apply tree_file_next. exact Htree. }
    destruct node as [|sub]; cbn [files_here] in Hp; [|exact (Hrest Hp)].
    apply elem_of_app in Hp as [Hp|Hp]; [|exact (Hrest Hp)].
    destruct (keep_file name) eqn:Hkeep; [|apply elem_of_nil in Hp; contradiction].
    apply list_elem_of_singleton in Hp. subst p.
    exists name. split; [reflexivity|]. split; [constructor | exact Hkeep].
Qed.

Lemma walk_below_sound entries : forall root p,
  p ∈ walk_below root entries ->
  exists rel, p = root ++ rel /\ tree_file entries rel /\ packable rel = true.
Proof.
  induction entries as [|sub Hsub| |name node Hnode rest IH] using fs_entries_mut
    with (P := fun node =>
                 match node with
                 | FsFile => True
                 | FsDir sub =>
                     forall root p,
                       p ∈ walk_below root sub ->
                       exists rel, p = root ++ rel /\ tree_file sub rel /\
                                   packable rel = true
                 end);
    try exact I; try assumption.
  - intros root p Hp. apply elem_of_nil in Hp. contradiction.
  - intros root p Hp. cbn [walk_below] in Hp.
    apply elem_of_app in Hp as [Hp|Hp].
    + destruct node as [|sub]; [apply elem_of_nil in Hp; contradiction|].
      destruct (keep_dir name) eqn:Hkeep; [|apply elem_of_nil in Hp; contradiction].
      apply elem_of_app in Hp as [Hp|Hp].
      * apply files_here_sound in Hp as (file & -> & Htree & Hfile).
        exists [name; file]. rewrite <- app_assoc.
        split; [reflexivity|]. split; [apply tree_file_below; exact Htree|].
        cbn [packable]. rewrite Hkeep, Hfile. reflexivity.
      * apply Hnode in Hp as (rel & -> & Htree & Hrel).
        exists (name :: rel). rewrite <- app_assoc.
        split; [reflexivity|]. split; [apply tree_file_below; exact Htree|].
        rewrite packable_cons by exact (tree_file_nonempty _ _ Htree).
        rewrite Hkeep, Hrel. reflexivity.
    + apply IH in Hp as (rel & -> & Htree & Hrel).
      exists rel. split; [reflexivity|]. split; [|exact Hrel].
      apply tree_file_next. exact Htree.
Qed.

Lemma walk_complete entries rel :
  tree_file entries rel ->
  packable rel = true ->
  forall root, root ++ rel ∈ files_here root entries ++ walk_below root entries.
Proof.
  induction 1 as [name rest|name sub rest rel Htree IH|name node rest rel Htree IH];
    intros Hrel root.
  - cbn [packable] in Hrel. apply elem_of_app. left.
    cbn [files_here]. rewrite Hrel. apply elem_of_app. left.
    apply list_elem_of_singleton. reflexivity.
  - rewrite packable_cons in Hrel by exact (tree_file_nonempty _ _ Htree).
    apply andb_true_iff in Hrel as [Hkeep Hrel].
    apply elem_of_app. right. cbn [walk_below]. rewrite Hkeep.
    apply elem_of_app. left.
    replace (root ++ name :: rel) with ((root ++ [name]) ++ rel)
      by (rewrite <- app_assoc; reflexivity).
    exact (IH Hrel (root ++ [name])).
  - specialize (IH Hrel root). apply elem_of_app in IH as [IH|IH].
    + apply elem_of_app. left.
      destruct node; cbn [files_here]; [apply elem_of_app; right|]; exact IH.
    + apply elem_of_app. right. cbn [walk_below]. apply elem_of_app. right. exact IH.
Qed.

(** X18: the archive holds exactly the packable files of the skill
    directory: a path is written if and only if it is the skill's name
    followed by the path of a regular file in the directory on which no
    directory is hidden or named [__pycache__] and whose file name is not
    hidden and does not end in [.pyc] or [.pyo]. *)
Theorem archive_holds_exactly_the_packable_files
    (skill_name : string) (tree : fs_entries) (arcname : list string) :
  arcname ∈ (package_skill skill_name tree).2 <->
  exists rel,
    arcname = skill_name :: rel /\ tree_file tree rel /\ packable rel = true.
Proof.
  unfold package_skill. cbn [snd]. split.
  - intros H. apply elem_of_app in H as [H|H].
    + apply files_here_sound in H as (file & -> & Htree & Hkeep).
      exists [file]. split; [reflexivity|]. split; [exact Htree | exact Hkeep].
    + apply walk_below_sound in H as (rel & -> & Htree & Hrel).
      exists rel. split; [reflexivity|]. split; assumption.
  - intros (rel & -> & Htree & Hrel).
    exact (walk_complete tree rel Htree Hrel [skill_name]).
Qed.

End Archive.

(* ===================================================================== *)
(** * Lint and analyze *)
(* ===================================================================== *)

Section LintAndAnalyze.
Import Py.

(** Nothing is counted exactly where the text does not hold the pattern. *)
Lemma count_zero_iff_absent c sub s :
  count_from (String c sub) s O = O <-> str_in (String c sub) s = false.
Proof.
  induction s as [|a s IH].
  - split; reflexivity.
  - cbn [count_from str_in].
    destruct (startswith (String c sub) (String a s)).
    + split; discriminate.
    + exact IH.
Qed.

(** X19: [lint] reports TODO placeholders exactly when the text holds
    "TODO": then its one issue gives their number, which is positive, and
    otherwise it has no issue at all. *)
Theorem lint_reports_todo_iff_present
    (dir : SkillDir) (issues suggestions : list string) :
  Forge.lint dir = Some (issues, suggestions) ->
  (str_in "TODO" (skill_md_text dir) = true ->
   (0 < count "TODO" (skill_md_text dir))%nat /\
   issues = ["Found " +:+ str_of_nat (count "TODO" (skill_md_text dir)) +:+
             " TODO placeholder(s)"]) /\
  (str_in "TODO" (skill_md_text dir) = false -> issues = []).
Proof.
  unfold Forge.lint. destruct (negb (path_exists dir "SKILL.md")); [discriminate|].
  intros [= <- _].
  pose proof (count_zero_iff_absent "T" "ODO" (skill_md_text dir)) as Hcount.
  change (count "TODO" (skill_md_text dir))
    with (count_from "TODO" (skill_md_text dir) O).
  destruct (count_from "TODO" (skill_md_text dir) O) as [|n] eqn:Hn.
  - split; [|reflexivity].
    intros Hin. rewrite (proj1 Hcount eq_refl) in Hin. discriminate Hin.
  - split; [intros _; split; [lia | reflexivity]|].
    intros Habsent. apply Hcount in Habsent. discriminate Habsent.
Qed.

Lemma lint_reports_todo_witness :
  ((0 < count "TODO" (skill_md_text MoreSamples.todo_once_skill))%nat /\
   ["Found 1 TODO placeholder(s)"] =
   ["Found " +:+ str_of_nat (count "TODO" (skill_md_text MoreSamples.todo_once_skill)) +:+
    " TODO placeholder(s)"]).
Proof.
  apply (lint_reports_todo_iff_present MoreSamples.todo_once_skill
           ["Found 1 TODO placeholder(s)"] []);
    vm_compute; reflexivity.
Defined.

(** The complexity is the highest rank any of the three counts reaches. *)
Lemma complexity_rank_is_highest scripts references assets :
  complexity_rank (SkillForge.complexity_of scripts references assets) =
  Nat.max (count_rank 1 3 scripts)
          (Nat.max (count_rank 2 5 references) (count_rank 3 10 assets)).
Proof.
  unfold SkillForge.complexity_of, count_rank.
  destruct (3 <? scripts)%nat, (5 <? references)%nat, (10 <? assets)%nat,
    (1 <? scripts)%nat, (2 <? references)%nat, (3 <? assets)%nat; reflexivity.
Qed.

Lemma count_rank_mono medium high n n' :
  (n <= n')%nat -> (count_rank medium high n <= count_rank medium high n')%nat.
Proof.
  intros Hn. unfold count_rank.
  destruct (high <? n)%nat eqn:H1, (medium <? n)%nat eqn:H2,
    (high <? n')%nat eqn:H3, (medium <? n')%nat eqn:H4; try lia;
    rewrite ?Nat.ltb_lt, ?Nat.ltb_ge in *; lia.
Qed.

(** X20: the complexity [analyze] prints never goes down when a skill
    gains scripts, references or assets. *)
Theorem complexity_grows_with_resources
    (scripts references assets scripts' references' assets' : nat) :
  (scripts <= scripts')%nat ->
  (references <= references')%nat ->
  (assets <= assets')%nat ->
  (complexity_rank (SkillForge.complexity_of scripts references assets) <=
   complexity_rank (SkillForge.complexity_of scripts' references' assets'))%nat.
Proof.
  intros Hs Hr Ha. rewrite !complexity_rank_is_highest.
  pose proof (count_rank_mono 1 3 _ _ Hs).
  pose proof (count_rank_mono 2 5 _ _ Hr).
  pose proof (count_rank_mono 3 10 _ _ Ha).
  lia.
Qed.

Lemma complexity_grows_witness :
  (complexity_rank (SkillForge.complexity_of 1 2 3) <=
   complexity_rank (SkillForge.complexity_of 2 2 3))%nat.
Proof. apply complexity_grows_with_resources; lia. Defined.

Lemma split_char_length s :
  length (split_char nl_char s) = S (count nl s).
Proof.
  unfold count, nl. induction s as [|a s IH]; [reflexivity|].
  cbn [split_char count_from startswith].
  change (len (String nl_char "") - 1)%nat with O.
  destruct (Ascii.eqb a nl_char) eqn:Ha.
  - apply Ascii.eqb_eq in Ha. subst a. rewrite Ascii.eqb_refl.
    cbn [length]. rewrite IH. reflexivity.
  - assert (Ascii.eqb nl_char a = false) as ->.
    { apply Ascii.eqb_neq. apply Ascii.eqb_neq in Ha. congruence. }
    destruct (split_char nl_char s) as [|l ls] eqn:Hs;
      [exact (False_ind _ (split_char_nonempty _ _ Hs))|].
    cbn [length] in *. exact IH.
Qed.

(** X21: the line count [analyze] prints is one more than the number of
    line feeds in SKILL.md, so it is never 0, and its size advice is given
    exactly when [_check_token_budget] of the validator warns that
    SKILL.md is large. *)
Theorem analyze_lines_and_size_advice
    (dir : SkillDir) (scripts references assets : PackageSkill.fs_entries)
    (report : SkillForge.token_report) :
  SkillForge.analyze dir scripts references assets = Some report ->
  SkillForge.line_count report = S (count nl (skill_md_text dir)) /\
  (SkillForge.large_advice report = true <->
   PackageSkill.large_warning (SkillForge.estimated_tokens report)
     ∈ PackageSkill.warnings
         (PackageSkill._check_token_budget dir PackageSkill.new_validator).2).
Proof.
  intros H. rewrite check_token_budget_returns.
  unfold SkillForge.analyze in H.
  destruct (negb (path_exists dir "SKILL.md")); [discriminate H|].
  cbv zeta in H.
  remember (len (skill_md_text dir) / 4)%nat as tokens eqn:Htokens.
  remember (length (split_char nl_char (skill_md_text dir))) as lines eqn:Hlines.
  injection H as <-.
  cbn [SkillForge.line_count SkillForge.large_advice SkillForge.estimated_tokens
       snd PackageSkill.warnings PackageSkill.new_validator app].
  split; [rewrite Hlines; apply split_char_length|].
  destruct (5000 <? tokens)%nat.
  - split; [intros _|reflexivity]. apply elem_of_app. left.
    apply list_elem_of_singleton. reflexivity.
  - split; [discriminate|]. intros H. exfalso.
    cbn [app] in H.
    destruct (500 <? length (PackageSkill.splitlines (skill_md_text dir)))%nat;
      [|apply elem_of_nil in H; contradiction].
    apply list_elem_of_singleton in H.
    apply (f_equal (take_str 10)) in H. vm_compute in H. discriminate H.
Qed.

Lemma analyze_lines_witness :
  SkillForge.line_count
    {| SkillForge.estimated_tokens := 5; SkillForge.line_count := 2;
       SkillForge.words := 5; SkillForge.scripts_count := 0;
       SkillForge.references_count := 0; SkillForge.assets_count := 0;
       SkillForge.complexity_level := SkillForge.Low;
       SkillForge.context_efficiency_good := true;
       SkillForge.large_advice := false |} =
    S (count nl (skill_md_text MoreSamples.todo_once_skill)) /\
  (false = true <->
   PackageSkill.large_warning 5
     ∈ PackageSkill.warnings
         (PackageSkill._check_token_budget MoreSamples.todo_once_skill
            PackageSkill.new_validator).2).
Proof.
  apply (analyze_lines_and_size_advice MoreSamples.todo_once_skill
           PackageSkill.FsNil PackageSkill.FsNil PackageSkill.FsNil).
  vm_compute. reflexivity.
Defined.

End LintAndAnalyze.

(* ===================================================================== *)
(** * Text as concatenation *)
(* ===================================================================== *)

Section Concatenation.
Import Py.

Lemma str_app_assoc a b c : (a +:+ b) +:+ c = a +:+ b +:+ c.
Proof.
  induction a as [|x a IH]; [reflexivity|].
  change ((String x a +:+ b) +:+ c) with (String x ((a +:+ b) +:+ c)).
  rewrite IH. reflexivity.
Qed.

Lemma str_app_empty_r a : a +:+ "" = a.
Proof.
  induction a as [|x a IH]; [reflexivity|].
  change (String x a +:+ "") with (String x (a +:+ "")). rewrite IH. reflexivity.
Qed.

Lemma len_app a b : len (a +:+ b) = (len a + len b)%nat.
Proof.
  unfold len. induction a as [|x a IH]; [reflexivity|].
  change (String x a +:+ b) with (String x (a +:+ b)).
  cbn [String.length]. rewrite IH. reflexivity.
Qed.

Lemma startswith_rebuild p s :
  startswith p s = true -> s = p +:+ drop_str (len p) s.
Proof.
  revert s. induction p as [|a p IH]; intros s H; [reflexivity|].
  destruct s as [|b s]; cbn [startswith] in H; [discriminate H|].
  destruct (Ascii.eqb a b) eqn:Hab; [|discriminate H].
  apply Ascii.eqb_eq in Hab. subst b.
  change (String a p +:+ drop_str (len (String a p)) (String a s))
    with (String a (p +:+ drop_str (len p) s)).
  rewrite <- (IH s H). reflexivity.
Qed.

(** [partition] cuts the text at an occurrence of the separator. *)
Lemma partition_rebuild sub s before after :
  partition sub s = Some (before, after) -> s = before +:+ sub +:+ after.
Proof.
  revert before. induction s as [|c s IH]; intros before; cbn [partition].
  - destruct (startswith sub "") eqn:Hstart; [|discriminate].
    intros [= <- <-]. exact (startswith_rebuild _ _ Hstart).
  - destruct (startswith sub (String c s)) eqn:Hstart.
    + intros [= <- <-]. exact (startswith_rebuild _ _ Hstart).
    + destruct (partition sub s) as [[b a]|]; [|discriminate].
      intros [= <- <-].
      change (String c b +:+ sub +:+ a) with (String c (b +:+ sub +:+ a)).
      rewrite <- (IH b eq_refl). reflexivity.
Qed.

(** A text that starts with the delimiter and splits in three is the
    delimiter, the header, the delimiter and the body. *)
Lemma frontmatter_split_rebuild content p0 header body :
  startswith "---" content = true ->
  PackageSkill.split_max "---" 2 content = [p0; header; body] ->
  p0 = "" /\ content = "---" +:+ header +:+ "---" +:+ body.
Proof.
  intros Hstart. cbn [PackageSkill.split_max].
  assert (partition "---" content = Some ("", drop_str 3 content)) as ->.
  { destruct content as [|c content]; cbn [partition]; rewrite Hstart; reflexivity. }
  destruct (partition "---" (drop_str 3 content)) as [[h b]|] eqn:Hpart;
    [|discriminate].
  intros [= <- <- <-]. split; [reflexivity|].
  rewrite <- (partition_rebuild _ _ _ _ Hpart).
  exact (startswith_rebuild _ _ Hstart).
Qed.

Lemma startswith_app_ext p a b :
  startswith p a = true -> startswith p (a +:+ b) = true.
Proof.
  revert a. induction p as [|x p IH]; intros a H; [reflexivity|].
  destruct a as [|y a]; cbn [startswith] in H; [discriminate H|].
  change (String y a +:+ b) with (String y (a +:+ b)). cbn [startswith].
  destruct (Ascii.eqb x y); [auto | discriminate H].
Qed.

Lemma startswith_str_in p s : startswith p s = true -> str_in p s = true.
Proof. intros H. destruct s; cbn [str_in]; rewrite H; reflexivity. Qed.

Lemma str_in_app_l p a b : str_in p a = true -> str_in p (a +:+ b) = true.
Proof.
  induction a as [|x a IH]; cbn [str_in]; intros H.
  - apply orb_true_iff in H as [H|H]; [|discriminate H].
    apply startswith_str_in. exact (startswith_app_ext p "" b H).
  - change (String x a +:+ b) with (String x (a +:+ b)). cbn [str_in].
    apply orb_true_iff in H as [H|H]; apply orb_true_iff.
    + left. exact (startswith_app_ext p (String x a) b H).
    + right. auto.
Qed.

Lemma str_in_app_r p a b : str_in p b = true -> str_in p (a +:+ b) = true.
Proof.
  intros H. induction a as [|x a IH]; [exact H|].
  change (String x a +:+ b) with (String x (a +:+ b)). cbn [str_in].
  rewrite IH. apply orb_true_r.
Qed.

(** [rstrip] keeps a prefix of the text and [lstrip] a suffix. *)
Lemma rstrip_is_prefix t : exists w, t = rstrip t +:+ w.
Proof.
  induction t as [|c t [w IH]]; [exists ""; reflexivity|].
  cbn [rstrip]. destruct (rstrip t) as [|r0 r] eqn:Hr.
  - destruct (isspace c).
    + exists (String c t). reflexivity.
    + exists t. reflexivity.
  - exists w. change (String c (String r0 r) +:+ w) with (String c (String r0 r +:+ w)).
    rewrite <- IH. reflexivity.
Qed.

Lemma lstrip_is_suffix l : exists w, l = w +:+ lstrip l.
Proof.
  induction l as [|c l [w IH]]; [exists ""; reflexivity|].
  cbn [lstrip]. destruct (isspace c).
  - exists (String c w). change (String c w +:+ lstrip l) with (String c (w +:+ lstrip l)).
    rewrite <- IH. reflexivity.
  - exists "". reflexivity.
Qed.

Lemma startswith_strip_str_in p l :
  startswith p (strip l) = true -> str_in p l = true.
Proof.
  unfold strip. intros H.
  destruct (rstrip_is_prefix (lstrip l)) as [w Hw].
  destruct (lstrip_is_suffix l) as [u Hu].
  rewrite Hu. apply str_in_app_r. rewrite Hw. apply str_in_app_l.
  apply startswith_str_in. exact H.
Qed.

Lemma join_holds_line l ls :
  l ∈ ls -> exists a b, join nl ls = a +:+ l +:+ b.
Proof.
  induction ls as [|x ls IH]; intros H; [apply elem_of_nil in H; contradiction|].
  destruct ls as [|y ls].
  - apply list_elem_of_singleton in H. subst x.
    exists "", "". cbn [join]. rewrite str_app_empty_r. reflexivity.
  - change (join nl (x :: y :: ls)) with (x +:+ nl +:+ join nl (y :: ls)).
    apply elem_of_cons in H as [->|H].
    + exists "", (nl +:+ join nl (y :: ls)). reflexivity.
    + destruct (IH H) as (a & b & ->).
      exists (x +:+ nl +:+ a), b. rewrite !str_app_assoc. reflexivity.
Qed.

(** A pattern found in a trimmed line of a text is in the text. *)
Lemma line_pattern_in_text p l s :
  l ∈ split_char nl_char s -> startswith p (strip l) = true -> str_in p s = true.
Proof.
  intros Hl Hp. apply join_holds_line in Hl as (a & b & Hjoin).
  rewrite join_split in Hjoin. rewrite Hjoin.
  apply str_in_app_r, str_in_app_l. exact (startswith_strip_str_in _ _ Hp).
Qed.

Lemma join_cons_len l ls :
  ls <> [] -> len (join nl (l :: ls)) = (len l + 1 + len (join nl ls))%nat.
Proof.
  destruct ls as [|y ls]; [contradiction|]. intros _.
  change (join nl (l :: y :: ls)) with (l +:+ nl +:+ join nl (y :: ls)).
  rewrite !len_app. change (len nl) with 1%nat. lia.
Qed.

Lemma join_filter_len_le (keep : string -> bool) ls :
  (len (join nl (filter (fun l => Is_true (keep l)) ls)) <= len (join nl ls))%nat.
Proof.
  induction ls as [|x ls IH]; [reflexivity|].
  assert (len (join nl ls) <= len (join nl (x :: ls)))%nat as Hgrow.
  { destruct ls as [|y ls]; [cbn; lia|].
    rewrite (join_cons_len x (y :: ls)) by discriminate. lia. }
  destruct (keep x) eqn:Hx.
  - rewrite filter_cons_True by (rewrite Hx; exact I).
    destruct ls as [|y ls]; [reflexivity|].
    rewrite (join_cons_len x (y :: ls)) by discriminate.
    destruct (filter (fun l => Is_true (keep l)) (y :: ls)) as [|z zs] eqn:Hf.
    + cbn [join]. lia.
    + rewrite (join_cons_len x (z :: zs)) by discriminate. lia.
  - rewrite filter_cons_False by (rewrite Hx; exact id). lia.
Qed.

(** Dropping a line that is not empty makes the joined text shorter. *)
Lemma join_filter_len_lt (keep : string -> bool) ls :
  (forall l, keep l = false -> l <> "") ->
  Exists (fun l => keep l = false) ls ->
  (len (join nl (filter (fun l => Is_true (keep l)) ls)) < len (join nl ls))%nat.
Proof.
  intros Hdropped. induction ls as [|x ls IH]; intros Hex; [inversion Hex|].
  destruct (keep x) eqn:Hx.
  - rewrite filter_cons_True by (rewrite Hx; exact I).
    inversion Hex as [? ? Hhead|? ? Htail]; subst; [congruence|].
    specialize (IH Htail).
    destruct ls as [|y ls]; [inversion Htail|].
    rewrite (join_cons_len x (y :: ls)) by discriminate.
    destruct (filter (fun l => Is_true (keep l)) (y :: ls)) as [|z zs] eqn:Hf.
    + cbn [join]. lia.
    + rewrite (join_cons_len x (z :: zs)) by discriminate. lia.
  - rewrite filter_cons_False by (rewrite Hx; exact id).
    pose proof (join_filter_len_le keep ls) as Hle.
    assert (0 < len x)%nat as Hlen.
    { pose proof (Hdropped x Hx). destruct x; [contradiction|]. cbn. lia. }
    destruct ls as [|y ls]; [cbn [filter join list_filter] in *; cbn; lia|].
    rewrite (join_cons_len x (y :: ls)) by discriminate. lia.
Qed.

Lemma filter_keeps_all (keep : string -> bool) ls :
  Forall (fun l => keep l = true) ls -> filter (fun l => Is_true (keep l)) ls = ls.
Proof.
  induction 1 as [|x ls Hx _ IH]; [reflexivity|].
  rewrite filter_cons_True by (rewrite Hx; exact I). rewrite IH. reflexivity.
Qed.

End Concatenation.

(* ===================================================================== *)
(** * Migration *)
(* ===================================================================== *)

Section Migration.
Import Py SkillForge.

Lemma not_license_line_nonempty l : not_license_line l = false -> l <> "".
Proof. intros H ->. discriminate H. Qed.

Lemma kept_lines_license_free header :
  license_free (join nl (kept_lines header)).
Proof.
  unfold license_free. destruct (kept_lines header) as [|l ls] eqn:Hkept.
  - repeat constructor.
  - assert (forall x, x ∈ l :: ls ->
                      not_license_line x = true /\ one_line x) as Hall.
    { intros x Hx. rewrite <- Hkept in Hx. unfold kept_lines in Hx.
      apply list_elem_of_filter in Hx as [Hkeep Hx]. split.
      - apply Is_true_true. exact Hkeep.
      - pose proof (split_lines_one_line header) as Hone.
        rewrite Forall_forall in Hone. exact (Hone x Hx). }
    rewrite split_join; [|discriminate|].
    + apply Forall_forall. intros x Hx. exact (proj1 (Hall x Hx)).
    + apply Forall_forall. intros x Hx. exact (proj2 (Hall x Hx)).
Qed.

(** A text whose header has no license line comes out unchanged. *)
Lemma migrate_text_license_free content :
  (forall p0 header body,
     startswith "---" content = true ->
     PackageSkill.split_max "---" 2 content = [p0; header; body] ->
     license_free header) ->
  (migrate_text content).1 = content.
Proof.
  intros Hfree. unfold migrate_text.
  destruct (startswith "---" content) eqn:Hstart; [|reflexivity].
  destruct (PackageSkill.split_max "---" 2 content)
    as [|p0 [|header [|body [|p3 ps]]]] eqn:Hsplit; try reflexivity.
  destruct (str_in "license:" header); [|reflexivity].
  cbn [fst].
  specialize (Hfree p0 header body eq_refl eq_refl).
  rewrite (filter_keeps_all not_license_line _ Hfree), join_split.
  symmetry. exact (proj2 (frontmatter_split_rebuild _ _ _ _ Hstart Hsplit)).
Qed.

(** X22: [migrate] rewrites SKILL.md exactly when a line of the header,
    trimmed, starts with "license:".  With no such line the file is left as
    it is, even where "license:" stands elsewhere in the header.  With one,
    the original text goes to the backup, and the new text is the header
    without those lines between the delimiters, followed by the body as it
    was: no license line is left, and the header is shorter. *)
Theorem migrate_rewrites_exactly_license_headers
    (dir : SkillDir) (p0 header body : string) :
  path_exists dir "SKILL.md" = true ->
  startswith "---" (skill_md_text dir) = true ->
  PackageSkill.split_max "---" 2 (skill_md_text dir) = [p0; header; body] ->
  (license_free header -> migrate dir = Some UpToDate) /\
  (~ license_free header ->
   migrate dir =
     Some (Migrated (skill_md_text dir)
             ("---" +:+ join nl (kept_lines header) +:+ "---" +:+ body)
             ["Removed 'license' field from frontmatter"]) /\
   license_free (join nl (kept_lines header)) /\
   (len (join nl (kept_lines header)) < len header)%nat).
Proof.
  intros Hmd Hstart Hsplit.
  destruct (frontmatter_split_rebuild _ _ _ _ Hstart Hsplit) as [-> Hcontent].
  unfold migrate. rewrite Hmd. cbn [negb]. split.
  - intros Hfree.
    assert ((migrate_text (skill_md_text dir)).1 = skill_md_text dir) as Hsame.
    { apply migrate_text_license_free. intros q0 h b _ Hsplit'.
      rewrite Hsplit in Hsplit'. injection Hsplit' as _ <- _. exact Hfree. }
    destruct (migrate_text (skill_md_text dir)) as [content changes].
    cbn [fst] in Hsame. subst content. rewrite String.eqb_refl. reflexivity.
  - intros Hlicense.
    assert (Exists (fun l => not_license_line l = false) (split_char nl_char header))
      as Hex.
    { unfold license_free in Hlicense. apply not_Forall_Exists in Hlicense.
      - eapply Exists_impl; [exact Hlicense|]. cbn. intros l Hl.
        destruct (not_license_line l); [contradiction | reflexivity].
      - intros l. cbn. destruct (not_license_line l); [left | right]; congruence. }
    assert (len (join nl (kept_lines header)) < len header)%nat as Hshorter.
    { rewrite <- (join_split header) at 2.
      exact (join_filter_len_lt not_license_line _ not_license_line_nonempty Hex). }
    assert (str_in "license:" header = true) as Hin.
    { apply Exists_exists in Hex as (l & Hl & Hline).
      apply (line_pattern_in_text _ l); [exact Hl|].
      unfold not_license_line in Hline. apply negb_false_iff. exact Hline. }
    unfold migrate_text. rewrite Hstart, Hsplit, Hin.
    fold (kept_lines header).
    assert (String.eqb ("---" +:+ join nl (kept_lines header) +:+ "---" +:+ body)
                       (skill_md_text dir) = false) as ->.
    { apply String.eqb_neq. intros Heq. apply (f_equal len) in Heq.
      rewrite Hcontent in Heq. rewrite !len_app in Heq. lia. }
    cbn [negb]. split; [reflexivity|]. split; [|exact Hshorter].
    apply kept_lines_license_free.
Qed.

Lemma migrate_rewrites_witness :
  (license_free (nl +:+ "name: demo" +:+ nl +:+ "license: MIT" +:+ nl +:+
                 "description: d" +:+ nl) ->
   migrate MoreSamples.licensed_skill = Some UpToDate) /\
  (~ license_free (nl +:+ "name: demo" +:+ nl +:+ "license: MIT" +:+ nl +:+
                   "description: d" +:+ nl) ->
   migrate MoreSamples.licensed_skill =
     Some (Migrated (skill_md_text MoreSamples.licensed_skill)
             ("---" +:+
              join nl (kept_lines (nl +:+ "name: demo" +:+ nl +:+ "license: MIT" +:+ nl +:+
                                   "description: d" +:+ nl)) +:+
              "---" +:+ nl +:+ "See license: MIT below.")
             ["Removed 'license' field from frontmatter"]) /\
   license_free
     (join nl (kept_lines (nl +:+ "name: demo" +:+ nl +:+ "license: MIT" +:+ nl +:+
                           "description: d" +:+ nl))) /\
   (len (join nl (kept_lines (nl +:+ "name: demo" +:+ nl +:+ "license: MIT" +:+ nl +:+
                              "description: d" +:+ nl))) <
    len (nl +:+ "name: demo" +:+ nl +:+ "license: MIT" +:+ nl +:+
         "description: d" +:+ nl))%nat).
Proof.
  apply (migrate_rewrites_exactly_license_headers MoreSamples.licensed_skill "");
    vm_compute; reflexivity.
Defined.

Lemma partition_at_start sub s :
  startswith sub s = true -> partition sub s = Some ("", drop_str (len sub) s).
Proof. destruct s; cbn [partition]; intros ->; reflexivity. Qed.

(** The text before the first occurrence of a separator is a prefix of the
    text before any occurrence. *)
Lemma partition_before_prefix sub x y before after :
  partition sub (x +:+ sub +:+ y) = Some (before, after) ->
  exists w, x = before +:+ w.
Proof.
  revert before. induction x as [|c x IH]; intros before.
  - change ("" +:+ sub +:+ y) with (sub +:+ y).
    rewrite (partition_at_start _ _ (startswith_own_prefix sub y)).
    intros [= <- _]. exists "". reflexivity.
  - change (String c x +:+ sub +:+ y) with (String c (x +:+ sub +:+ y)).
    cbn [partition].
    destruct (startswith sub (String c (x +:+ sub +:+ y))).
    + intros [= <- _]. exists (String c x). reflexivity.
    + destruct (partition sub (x +:+ sub +:+ y)) as [[b a]|]; [|discriminate].
      intros [= <- <-]. destruct (IH b eq_refl) as [w ->].
      exists w. reflexivity.
Qed.

(** The lines of a prefix of a text are the first lines of the text, the
    last of them cut short. *)
Lemma split_prefix_lines b w :
  exists init last u more,
    split_char nl_char b = init ++ [last] /\
    split_char nl_char (b +:+ w) = init ++ (last +:+ u) :: more.
Proof.
  induction b as [|c b (init & last & u & more & Hb & Hbw)].
  - destruct (split_char nl_char w) as [|l0 more] eqn:Hw;
      [exact (False_ind _ (split_char_nonempty _ _ Hw))|].
    exists [], "", l0, more. split; [reflexivity|]. exact Hw.
  - change (String c b +:+ w) with (String c (b +:+ w)).
    cbn [split_char]. destruct (Ascii.eqb c nl_char).
    + exists ("" :: init), last, u, more. rewrite Hb, Hbw. split; reflexivity.
    + rewrite Hb, Hbw. destruct init as [|i0 init].
      * exists [], (String c last), u, more. split; reflexivity.
      * exists (String c i0 :: init), last, u, more. split; reflexivity.
Qed.

Lemma lstrip_app l u : lstrip l <> "" -> lstrip (l +:+ u) = lstrip l +:+ u.
Proof.
  induction l as [|c l IH]; intros H; [contradiction|].
  change (String c l +:+ u) with (String c (l +:+ u)).
  cbn [lstrip] in *. destruct (isspace c); [exact (IH H) | reflexivity].
Qed.

Lemma rstrip_cons_visible c s :
  isspace c = false -> rstrip (String c s) = String c (rstrip s).
Proof.
  intros Hc. cbn [rstrip]. rewrite Hc. destruct (rstrip s); reflexivity.
Qed.

(** A prefix without whitespace survives [rstrip]. *)
Lemma rstrip_keeps_prefix p : forall s,
  Forall (fun c => isspace c = false) (chars p) ->
  startswith p s = true -> startswith p (rstrip s) = true.
Proof.
  induction p as [|x p IH]; intros s Hp Hs; [reflexivity|].
  destruct s as [|y s]; cbn [startswith] in Hs; [discriminate Hs|].
  destruct (Ascii.eqb x y) eqn:Hxy; [|discriminate Hs].
  apply Ascii.eqb_eq in Hxy. subst y.
  cbn [chars] in Hp. inversion Hp as [|? ? Hx Hrest]; subst.
  rewrite rstrip_cons_visible by exact Hx.
  cbn [startswith]. rewrite Ascii.eqb_refl. exact (IH s Hrest Hs).
Qed.

(** A line that is cut short does not become a license line. *)
Lemma not_license_line_prefix l u :
  not_license_line (l +:+ u) = true -> not_license_line l = true.
Proof.
  unfold not_license_line. intros H.
  destruct (startswith "license:" (strip l)) eqn:Hl; [|reflexivity].
  exfalso. unfold strip in *.
  assert (startswith "license:" (lstrip l) = true) as Hleft.
  { destruct (rstrip_is_prefix (lstrip l)) as [w Hw]. rewrite Hw.
    apply startswith_app_ext. exact Hl. }
  assert (lstrip l <> "") as Hne by (intros Hnil; rewrite Hnil in Hleft; discriminate).
  rewrite (lstrip_app _ u Hne) in H.
  rewrite rstrip_keeps_prefix in H; [discriminate H| |].
  - cbn. repeat constructor.
  - apply startswith_app_ext. exact Hleft.
Qed.

Lemma license_free_prefix b w : license_free (b +:+ w) -> license_free b.
Proof.
  unfold license_free.
  destruct (split_prefix_lines b w) as (init & last & u & more & -> & ->).
  intros H. apply Forall_app in H as [Hinit Hrest].
  inversion Hrest as [|? ? Hlast _]; subst.
  apply Forall_app. split; [exact Hinit|].
  repeat constructor. exact (not_license_line_prefix _ _ Hlast).
Qed.

(** X23: a second run of [migrate] finds nothing to do: once SKILL.md
    holds the text a migration wrote, [migrate] leaves it as it is. *)
Theorem migrate_twice_changes_nothing
    (dir : SkillDir) (backup new_text : string) (changes : list string) :
  migrate dir = Some (Migrated backup new_text changes) ->
  migrate (with_skill_md dir new_text) = Some UpToDate.
Proof.
  unfold migrate. cbn [path_exists skill_md_text with_skill_md].
  destruct (negb (path_exists dir "SKILL.md")); [discriminate|].
  intros Hfirst.
  assert ((migrate_text new_text).1 = new_text) as Hsame.
  { unfold migrate_text in Hfirst.
    destruct (startswith "---" (skill_md_text dir));
      [|rewrite String.eqb_refl in Hfirst; discriminate Hfirst].
    destruct (PackageSkill.split_max "---" 2 (skill_md_text dir))
      as [|p0 [|header [|body [|p3 ps]]]];
      try (rewrite String.eqb_refl in Hfirst; discriminate Hfirst).
    destruct (str_in "license:" header);
      [|rewrite String.eqb_refl in Hfirst; discriminate Hfirst].
    fold (kept_lines header) in Hfirst.
    destruct (negb _); [|discriminate Hfirst].
    injection Hfirst as _ <- _.
    apply migrate_text_license_free. intros q0 h b _ Hsplit.
    cbn [PackageSkill.split_max] in Hsplit.
    change (partition "---"
              ("---" +:+ join nl (kept_lines header) +:+ "---" +:+ body))
      with (Some ("", join nl (kept_lines header) +:+ "---" +:+ body)) in Hsplit.
    cbv beta iota in Hsplit.
    destruct (partition "---" (join nl (kept_lines header) +:+ "---" +:+ body))
      as [[h' b']|] eqn:Hpart; [|discriminate Hsplit].
    injection Hsplit as _ <- _.
    destruct (partition_before_prefix _ _ _ _ _ Hpart) as [w Hw].
    apply (license_free_prefix h' w). rewrite <- Hw.
    apply kept_lines_license_free. }
  destruct (migrate_text new_text) as [content changes'].
  cbn [fst] in Hsame. subst content. rewrite String.eqb_refl. reflexivity.
Qed.

Lemma migrate_twice_witness :
  migrate (with_skill_md MoreSamples.licensed_skill
             (join nl ["---"; "name: demo"; "description: d"; "---";
                       "See license: MIT below."])) = Some UpToDate.
Proof.
  apply (migrate_twice_changes_nothing MoreSamples.licensed_skill
           MoreSamples.licensed_doc _ ["Removed 'license' field from frontmatter"]).
  vm_compute. reflexivity.
Defined.

End Migration.

(* ===================================================================== *)
(** * Skill names (init_skill.py) *)
(* ===================================================================== *)

Section SkillNames.
Import Py InitSkill.

Lemma dash_or_underscore d :
  str_in (String d "") "-_" = true <-> d = "-"%char \/ d = "_"%char.
Proof.
  destruct d as [[] [] [] [] [] [] [] []]; vm_compute;
    (split; [intros H; try discriminate H; auto
            | intros [H|H]; try discriminate H; reflexivity]).
Qed.

Lemma name_char_is_safe d :
  (isalnum d || str_in (String d "") "-_") = true ->
  d <> "/"%char /\ d <> "."%char /\ isspace d = false.
Proof.
  destruct d as [[] [] [] [] [] [] [] []]; vm_compute; intros H;
    try discriminate H; (split; [discriminate | split; [discriminate | reflexivity]]).
Qed.

Lemma all_name_chars_spec name :
  all_name_chars name = true <->
  Forall (fun d => isalnum d = true \/ d = "-"%char \/ d = "_"%char) (chars name).
Proof.
  induction name as [|c rest IH]; cbn [all_name_chars chars].
  - split; [constructor | reflexivity].
  - rewrite andb_true_iff, orb_true_iff, dash_or_underscore, IH, Forall_cons.
    reflexivity.
Qed.

(** X24: [validate_skill_name] accepts exactly the names that begin with an
    alphanumeric character and go on with alphanumeric characters, hyphens
    and underscores (upper-case letters included); an accepted name holds no
    path separator, no dot and no whitespace. *)
Theorem accepted_skill_names (name : string) :
  (validate_skill_name name = true <->
   exists c rest,
     name = String c rest /\ isalnum c = true /\
     Forall (fun d => isalnum d = true \/ d = "-"%char \/ d = "_"%char) (chars rest)) /\
  (validate_skill_name name = true ->
   Forall (fun d => d <> "/"%char /\ d <> "."%char /\ isspace d = false) (chars name)).
Proof.
  assert (validate_skill_name name = true ->
          all_name_chars name = true /\
          exists c rest, name = String c rest /\ isalnum c = true) as Hshape.
  { unfold validate_skill_name. destruct name as [|c rest]; [discriminate|].
    cbn [truthy negb].
    destruct (all_name_chars (String c rest)) eqn:Hall; [|discriminate].
    cbn [negb]. intros Hstart. split; [reflexivity|].
    exists c, rest. split; [reflexivity|].
    cbn [all_name_chars] in Hall. apply andb_true_iff in Hall as [Hc _].
    apply orb_true_iff in Hc as [Hc|Hc]; [exact Hc|].
    apply dash_or_underscore in Hc as [-> | ->]; vm_compute in Hstart;
      discriminate Hstart. }
  split; [split|].
  - intros H. destruct (Hshape H) as [Hall (c & rest & -> & Hc)].
    exists c, rest. split; [reflexivity|]. split; [exact Hc|].
    apply all_name_chars_spec. cbn [all_name_chars] in Hall.
    apply andb_true_iff in Hall as [_ Hrest]. exact Hrest.
  - intros (c & rest & -> & Hc & Hrest).
    apply all_name_chars_spec in Hrest.
    unfold validate_skill_name. cbn [truthy negb all_name_chars].
    rewrite Hc, Hrest. cbn [orb andb negb].
    destruct c as [[] [] [] [] [] [] [] []]; try reflexivity;
      vm_compute in Hc; discriminate Hc.
  - intros H. destruct (Hshape H) as [Hall _]. clear H Hshape.
    induction name as [|c rest IH]; cbn [chars]; [constructor|].
    cbn [all_name_chars] in Hall. apply andb_true_iff in Hall as [Hc Hrest].
    constructor; [exact (name_char_is_safe c Hc) | exact (IH Hrest)].
Qed.

Lemma accepted_skill_names_witness :
  Forall (fun d => d <> "/"%char /\ d <> "."%char /\ isspace d = false)
         (chars "My_skill-2").
Proof.
  apply (proj2 (accepted_skill_names "My_skill-2")). vm_compute. reflexivity.
Defined.

End SkillNames.
